(** * InsightIQ: the chunking summarizer, the resilient API invoker and the
      structured quiz generator

    A shallow embedding of [summarizer.py] and [quizgenerator.py].

    - Python [str] is a sequence of Unicode code points: [list N].
    - Python [int] is unbounded: [Z].
    - Values that come back from the network (decoded JSON) are dynamically
      typed: the inductive [pyval].
    - Network, clock and file system are a [World] threaded through a small
      state-and-exception monad [M]; every outbound POST, every [time.sleep]
      and every file write is appended to the world's event trace.
    - [json.loads] is a parameter of the quiz generator: a function from a
      string to the decoded value, or to nothing when it raises
      [json.JSONDecodeError].
    - [print] calls only write to standard output and are left out. *)

From Stdlib Require Import ZArith NArith List Lia Bool String Ascii DecimalString.
From Stdlib Require Import SpecFloat.
From stdpp Require Import base option list gmap.

Local Open Scope Z_scope.
Set Warnings "-register-all".

(** ** Python strings *)

Abbreviation str := (list N).

(** An ASCII literal as a Python string. *)
Definition lit (s : string) : str := map N_of_ascii (list_ascii_of_string s).

(** [len(s)] *)
Definition len (s : str) : Z := Z.of_nat (length s).

(** The code points for which [str.isspace] holds (CPython's
    [Py_UNICODE_ISSPACE]); [str.strip()] with no argument removes exactly
    these. *)
Definition isspace (c : N) : bool :=
  (((9 <=? c) && (c <=? 13)) || ((28 <=? c) && (c <=? 32))
   || (c =? 133) || (c =? 160) || (c =? 5760)
   || ((8192 <=? c) && (c <=? 8202))
   || (c =? 8232) || (c =? 8233) || (c =? 8239) || (c =? 8287)
   || (c =? 12288))%N.

Fixpoint lstrip (s : str) : str :=
  match s with
  | [] => []
  | c :: rest => if isspace c then lstrip rest else s
  end.

Definition rstrip (s : str) : str := rev (lstrip (rev s)).

(** [s.strip()] *)
Definition strip (s : str) : str := rstrip (lstrip s).

(** Truth value of a string: [if s:] holds iff [s] is not empty. *)
Definition str_truthy (s : str) : bool :=
  match s with [] => false | _ => true end.

(** A negative slice index counts from the end and is clamped at 0. *)
Definition adjust_index (i n : Z) : Z :=
  if i <? 0 then Z.max (i + n) 0 else i.

(** [s[start:end]]: both indices are adjusted and clamped to [0, len(s)]. *)
Definition slice (s : str) (start end_ : Z) : str :=
  let n := len s in
  let lo := Z.min (adjust_index start n) n in
  let hi := Z.min (adjust_index end_ n) n in
  take (Z.to_nat (hi - lo)) (drop (Z.to_nat lo) s).

(** The highest index [j] of [s] (whose head has index [i]) with
    [lo <= j < hi] and [s[j] = c], or [-1]. *)
Fixpoint rfind_scan (s : str) (c : N) (lo hi i : Z) : Z :=
  match s with
  | [] => -1
  | x :: rest =>
      let later := rfind_scan rest c lo hi (i + 1) in
      if 0 <=? later then later
      else if (lo <=? i) && (i <? hi) && (x =? c)%N then i
      else -1
  end.

(** [s.rfind(c, start, end)] for a one-character needle: the indices are
    read as in slice notation (CPython's [ADJUST_INDICES]). *)
Definition rfind (s : str) (c : N) (start end_ : Z) : Z :=
  let n := len s in
  let hi := if end_ >? n then n else adjust_index end_ n in
  let lo := adjust_index start n in
  rfind_scan s c lo hi 0.

(** ** summarizer.py: constants *)

Definition CHUNK_SIZE : Z := 15000.
Definition CHUNK_OVERLAP : Z := 1000.

Definition period : N := 46.   (* '.' *)
Definition newline : N := 10.  (* '\n' *)

(** ** summarizer.py: [chunk_text] *)

(** The value of [end] when the chunk is cut, for the iteration that begins
    at [start]. *)
Definition chunk_end (text : str) (max_chunk_size overlap start : Z) : Z :=
  let end_ := Z.min (start + max_chunk_size) (len text) in
  if end_ <? len text then
    let last_period := rfind text period start end_ in
    let last_newline := rfind text newline start end_ in
    let break_point := Z.max last_period last_newline in
    if break_point >? start + max_chunk_size - overlap
    then break_point + 1
    else end_
  else end_.

(** [start = end - overlap if end < len(text) else len(text)] *)
Definition next_start (text : str) (overlap end_ : Z) : Z :=
  if end_ <? len text then end_ - overlap else len text.

(** [chunks.append(chunk)] guarded by [if chunk:] *)
Definition append_chunk (chunks : list str) (chunk : str) : list str :=
  if str_truthy chunk then chunks ++ [chunk] else chunks.

(** The [while start < len(text)] loop.  The loop is not bounded by the
    source, so the model counts iterations: [None] means that [fuel]
    iterations were not enough. *)
Fixpoint chunk_loop (fuel : nat) (text : str) (max_chunk_size overlap : Z)
    (start : Z) (chunks : list str) : option (list str) :=
  match fuel with
  | O => None
  | S fuel' =>
      if start <? len text then
        let end_ := chunk_end text max_chunk_size overlap start in
        let chunk := strip (slice text start end_) in
        chunk_loop fuel' text max_chunk_size overlap
          (next_start text overlap end_) (append_chunk chunks chunk)
      else Some chunks
  end.

Definition chunk_text_fuel (fuel : nat) (text : str)
    (max_chunk_size overlap : Z) : option (list str) :=
  chunk_loop fuel text max_chunk_size overlap 0 [].

(** The spans [(start, end)] the same loop cuts, one per iteration, whether
    or not the trimmed chunk is kept. *)
Fixpoint chunk_spans (fuel : nat) (text : str) (max_chunk_size overlap : Z)
    (start : Z) : option (list (Z * Z)) :=
  match fuel with
  | O => None
  | S fuel' =>
      if start <? len text then
        let end_ := chunk_end text max_chunk_size overlap start in
        match chunk_spans fuel' text max_chunk_size overlap
                (next_start text overlap end_) with
        | Some spans => Some ((start, end_) :: spans)
        | None => None
        end
      else Some []
  end.

(** The spans of the first [n] iterations of the loop of [chunk_text],
    whether or not the loop has finished by then. *)
Fixpoint spans_cut (n : nat) (text : str) (max_chunk_size overlap : Z)
    (start : Z) : list (Z * Z) :=
  match n with
  | O => []
  | S n' =>
      if start <? len text then
        let end_ := chunk_end text max_chunk_size overlap start in
        (start, end_)
          :: spans_cut n' text max_chunk_size overlap
               (next_start text overlap end_)
      else []
  end.

(** [chunk_text]: when every iteration moves [start] forward, the loop body
    runs at most [len(text)] times. *)
Definition chunk_text (text : str) (max_chunk_size overlap : Z)
  : option (list str) :=
  chunk_text_fuel (S (length text)) text max_chunk_size overlap.

(** The chunks a list of spans gives: each span's slice trimmed, the empty
    ones left out. *)
Definition chunks_of_spans (text : str) (spans : list (Z * Z)) : list str :=
  fold_left (fun acc se => append_chunk acc (strip (slice text se.1 se.2)))
            spans [].

(** ** Python values

    What [response.json()] and [json.loads] produce: [None], booleans,
    integers, floats, strings, lists and dictionaries with string keys.  A
    dictionary keeps its insertion order; [json.loads] builds every
    container afresh, so no two positions of a decoded value share an
    object and in-place updates can be modelled by rebuilding the value. *)
Inductive pyval : Type :=
| PNone
| PBool (b : bool)
| PInt (z : Z)
| PFloat (f : spec_float)
| PStr (s : str)
| PList (items : list pyval)
| PDict (entries : list (str * pyval)).

(** An HTTP response as the code reads it: [status_code], [text], and what
    [response.json()] gives ([None] when the body is not JSON and the call
    raises). *)
Record Response := {
  status_code : Z;
  text : str;
  json : option pyval
}.

(** Exceptions.  A message built by an f-string is kept as its fragments, so
    that the rendering of an interpolated value or exception by [str()] does
    not have to be modelled.  The message texts of exceptions raised by the
    interpreter or by a library are not modelled. *)
Inductive exn : Type :=
| ValueError (msg : str)
| PyException (msg : list frag)        (* raise Exception(f"...") *)
| IOError (msg : list frag)            (* raise IOError(f"...") *)
| HTTPError (response : Response)      (* response.raise_for_status() *)
| RequestException (detail : str)      (* requests.post: connection, timeout *)
| JSONDecodeError
| KeyError (key : pyval)
| IndexError
| TypeError
| AttributeError
| FsError (detail : str)               (* OSError from open() or f.write() *)
| UnicodeEncodeError
| RecursionError
with frag : Type :=
| Lit (s : str)
| Val (v : pyval)
| Err (e : exn).

(** The result of running a piece of code: a value, an exception, or no
    result because a loop ran out of fuel. *)
Inductive outcome (A : Type) : Type :=
| Ok (a : A)
| Raise (e : exn)
| Loops.
Arguments Ok {A} a.
Arguments Raise {A} e.
Arguments Loops {A}.

Definition obind {A B} (m : outcome A) (k : A -> outcome B) : outcome B :=
  match m with
  | Ok a => k a
  | Raise e => Raise e
  | Loops => Loops
  end.

Notation "'let+' x := m 'in' k" := (obind m (fun x => k))
  (at level 10, x name, m at level 100, k at level 200).

(** *** Operations of the interpreter on values *)

(** Truth value, as tested by [if], [not] and [and]. *)
Definition py_truthy (v : pyval) : bool :=
  match v with
  | PNone => false
  | PBool b => b
  | PInt z => negb (z =? 0)
  | PFloat (S754_zero _) => false
  | PFloat _ => true
  | PStr s => str_truthy s
  | PList [] => false
  | PList _ => true
  | PDict [] => false
  | PDict _ => true
  end.

Fixpoint dict_lookup (k : str) (d : list (str * pyval)) : option pyval :=
  match d with
  | [] => None
  | (k', v) :: rest => if bool_decide (k' = k) then Some v else dict_lookup k rest
  end.

(** [d[k] = v]: an existing key keeps its position, a new one goes last. *)
Fixpoint dict_set (k : str) (v : pyval) (d : list (str * pyval))
  : list (str * pyval) :=
  match d with
  | [] => [(k, v)]
  | (k', v') :: rest =>
      if bool_decide (k' = k) then (k', v) :: rest
      else (k', v') :: dict_set k v rest
  end.

(** [v.get(k, default)]: only dictionaries have the method. *)
Definition py_get (v : pyval) (k : str) (default : pyval) : outcome pyval :=
  match v with
  | PDict d => Ok (match dict_lookup k d with Some x => x | None => default end)
  | _ => Raise AttributeError
  end.

(** [v[k]] for a string key [k]. *)
Definition py_getitem_key (v : pyval) (k : str) : outcome pyval :=
  match v with
  | PDict d =>
      match dict_lookup k d with
      | Some x => Ok x
      | None => Raise (KeyError (PStr k))
      end
  | _ => Raise TypeError
  end.

(** [v[i]] for an integer [i]; a negative index counts from the end.  The
    keys of a decoded dictionary are strings, so an integer is never
    found. *)
Definition py_getitem_int (v : pyval) (i : Z) : outcome pyval :=
  match v with
  | PList l =>
      let j := if i <? 0 then i + Z.of_nat (length l) else i in
      if j <? 0 then Raise IndexError
      else match l !! Z.to_nat j with
           | Some x => Ok x
           | None => Raise IndexError
           end
  | PStr s =>
      let j := if i <? 0 then i + len s else i in
      if j <? 0 then Raise IndexError
      else match s !! Z.to_nat j with
           | Some c => Ok (PStr [c])
           | None => Raise IndexError
           end
  | PDict _ => Raise (KeyError (PInt i))
  | _ => Raise TypeError
  end.

Fixpoint is_prefix (p s : str) : bool :=
  match p, s with
  | [], _ => true
  | _ :: _, [] => false
  | a :: p', b :: s' => (a =? b)%N && is_prefix p' s'
  end.

(** [p in s] for strings: [p] occurs in [s]. *)
Fixpoint is_substring (p s : str) : bool :=
  is_prefix p s ||
  match s with
  | [] => false
  | _ :: s' => is_substring p s'
  end.

(** [k in v] for a string [k]: key of a dictionary, element of a list,
    substring of a string; other values are not containers. *)
Definition py_contains (k : str) (v : pyval) : outcome bool :=
  match v with
  | PDict d => Ok (bool_decide (is_Some (dict_lookup k d)))
  | PList l =>
      Ok (existsb (fun x => match x with
                            | PStr s => bool_decide (s = k)
                            | _ => false
                            end) l)
  | PStr s => Ok (is_substring k s)
  | _ => Raise TypeError
  end.

(** [v.strip()]: a string method. *)
Definition py_strip (v : pyval) : outcome str :=
  match v with
  | PStr s => Ok (strip s)
  | _ => Raise AttributeError
  end.

(** [v[k] = x] for a string key [k]: dictionaries take it; lists want an
    integer index and the other values support no item assignment. *)
Definition py_setitem_key (v : pyval) (k : str) (x : pyval) : outcome pyval :=
  match v with
  | PDict d => Ok (PDict (dict_set k x d))
  | _ => Raise TypeError
  end.

(** The items [for ... in v] yields: the elements of a list, the
    one-character strings of a string, the keys of a dictionary. *)
Definition py_iter (v : pyval) : outcome (list pyval) :=
  match v with
  | PList l => Ok l
  | PStr s => Ok (map (fun c => PStr [c]) s)
  | PDict d => Ok (map (fun kv => PStr kv.1) d)
  | _ => Raise TypeError
  end.

(** [sep.join(items)]: every item has to be a string. *)
Fixpoint py_join (sep : str) (items : list pyval) : outcome str :=
  match items with
  | [] => Ok []
  | PStr s :: rest =>
      match rest with
      | [] => Ok s
      | _ => let+ tail := py_join sep rest in Ok (s ++ sep ++ tail)
      end
  | _ :: _ => Raise TypeError
  end.

(** [str(n)] for an integer. *)
Definition str_of_int (n : Z) : str := lit (NilZero.string_of_int (Z.to_int n)).

(** [range(n)] *)
Definition range (n : Z) : list Z := map Z.of_nat (seq 0 (Z.to_nat n)).

(** ** The world outside: network, clock, file system *)

(** What [requests.post] is called with.  [data] is the payload before
    [json.dumps]. *)
Record Request := {
  url : str;
  headers : list (str * str);
  data : pyval;
  timeout : option Z
}.

(** [requests.post] returns a response or raises an exception of its own
    ([ConnectionError], [Timeout], ...); [HTTPError] is only ever raised by
    [raise_for_status]. *)
Inductive PostOutcome :=
| PostRaises (detail : str)
| PostReturns (r : Response).

(** Opening a path for writing can fail, and so can the write after the
    file has been opened (and truncated). *)
Inductive FsFault := OpenFails (detail : str) | WriteFails (detail : str).

Inductive event :=
| EvPost (req : Request)
| EvSleep (seconds : Z)
| EvWrite (path content : str).

(** [transport n req] is what the [n]-th POST of the run (counted from 0)
    gets when it sends [req]: any deterministic mock of the endpoint. *)
Record World := {
  transport : nat -> Request -> PostOutcome;
  fs_fault : str -> option FsFault;
  files : gmap (list N) (list N);
  trace : list event
}.

Definition is_post (e : event) : bool :=
  match e with EvPost _ => true | _ => false end.

Definition is_sleep (e : event) : bool :=
  match e with EvSleep _ => true | _ => false end.

Definition count_posts (t : list event) : nat := length (filter is_post t).
Definition count_sleeps (t : list event) : nat := length (filter is_sleep t).

Definition log (e : event) (w : World) : World :=
  {| transport := transport w; fs_fault := fs_fault w; files := files w;
     trace := trace w ++ [e] |}.

Definition set_file (path content : str) (w : World) : World :=
  {| transport := transport w; fs_fault := fs_fault w;
     files := <[path := content]> (files w); trace := trace w |}.

(** *** State and exceptions *)

Definition M (A : Type) : Type := World -> outcome A * World.

Definition ret {A} (a : A) : M A := fun w => (Ok a, w).

Definition bind {A B} (m : M A) (k : A -> M B) : M B :=
  fun w =>
    match m w with
    | (Ok a, w') => k a w'
    | (Raise e, w') => (Raise e, w')
    | (Loops, w') => (Loops, w')
    end.

Notation "'let*' x := m 'in' k" := (bind m (fun x => k))
  (at level 10, x name, m at level 100, k at level 200).

Definition raise {A} (e : exn) : M A := fun w => (Raise e, w).

Definition lift {A} (o : outcome A) : M A := fun w => (o, w).

(** [try: body  except ... as e: handler e].  The handler sees the world as
    the body left it; what the handler raises is not caught again. *)
Definition try_except {A} (body : M A) (handler : exn -> M A) : M A :=
  fun w =>
    match body w with
    | (Raise e, w') => handler e w'
    | r => r
    end.

(** [requests.post(...)] *)
Definition post (req : Request) : M Response :=
  fun w =>
    let w' := log (EvPost req) w in
    match transport w (count_posts (trace w)) req with
    | PostRaises detail => (Raise (RequestException detail), w')
    | PostReturns r => (Ok r, w')
    end.

(** [response.raise_for_status()]: 4xx and 5xx raise. *)
Definition raise_for_status (r : Response) : outcome unit :=
  if (400 <=? status_code r) && (status_code r <? 600)
  then Raise (HTTPError r)
  else Ok tt.

(** [response.json()] *)
Definition response_json (r : Response) : outcome pyval :=
  match json r with
  | Some v => Ok v
  | None => Raise JSONDecodeError
  end.

(** [time.sleep(seconds)] *)
Definition sleep (seconds : Z) : M unit :=
  fun w => (Ok tt, log (EvSleep seconds) w).

(** Text written with [encoding='utf-8'] must not hold a lone surrogate. *)
Definition utf8_encodable (s : str) : bool :=
  forallb (fun c => negb ((55296 <=? c) && (c <=? 57343))%N) s.

(** [with open(path, 'w', encoding='utf-8') as f: f.write(content)].
    Opening truncates the file; the write then replaces its content. *)
Definition write_file (path : str) (content : pyval) : M unit :=
  fun w =>
    match fs_fault w path with
    | Some (OpenFails detail) => (Raise (FsError detail), w)
    | Some (WriteFails detail) => (Raise (FsError detail), set_file path [] w)
    | None =>
        match content with
        | PStr s =>
            if utf8_encodable s
            then (Ok tt, log (EvWrite path s) (set_file path s w))
            else (Raise UnicodeEncodeError, set_file path [] w)
        | _ => (Raise TypeError, set_file path [] w)
        end
    end.

(** [for x in xs: results.append(f x)] *)
Fixpoint for_each {A B} (f : A -> M B) (xs : list A) : M (list B) :=
  match xs with
  | [] => ret []
  | x :: rest =>
      let* y := f x in
      let* ys := for_each f rest in
      ret (y :: ys)
  end.

(** ** Shared pieces of both modules *)

Definition MODEL_NAME : str := lit "gemini-2.5-flash-preview-09-2025".

Definition api_url (api_key : str) : str :=
  lit "https://generativelanguage.googleapis.com/v1beta/models/"
  ++ MODEL_NAME ++ lit ":generateContent?key=" ++ api_key.

Definition json_headers : list (str * str) :=
  [(lit "Content-Type", lit "application/json")].

Definition max_retries : Z := 3.

(** The test of both [except HTTPError] handlers: retry when this is not the
    last attempt and the status is 429 or at least 500. *)
Definition should_retry (attempt : Z) (response : Response) : bool :=
  (attempt <? max_retries - 1)
  && ((status_code response =? 429) || (status_code response >=? 500)).

(** ** summarizer.py: [_call_gemini_api] *)

Definition summary_payload (system_prompt user_query : str) : pyval :=
  PDict [
    (lit "contents",
       PList [PDict [(lit "parts", PList [PDict [(lit "text", PStr user_query)]])]]);
    (lit "tools", PList [PDict [(lit "google_search", PDict [])]]);
    (lit "systemInstruction",
       PDict [(lit "parts", PList [PDict [(lit "text", PStr system_prompt)]])])
  ].

Definition summary_request (system_prompt user_query api_key : str) : Request :=
  {| url := api_url api_key; headers := json_headers;
     data := summary_payload system_prompt user_query; timeout := None |}.

(** The body of the [try] after the response has passed
    [raise_for_status]. *)
Definition extract_summary (result : pyval) : outcome pyval :=
  let+ has := py_contains (lit "candidates") result in
  let+ blocked :=
    (if negb has then Ok true
     else let+ c := py_getitem_key result (lit "candidates") in
          Ok (negb (py_truthy c))) in
  if blocked then
    let+ feedback := py_get result (lit "promptFeedback")
                       (PStr (lit "No detailed feedback.")) in
    Raise (PyException
             [Lit (lit "Gemini API returned no candidates or was blocked: ");
              Val feedback])
  else
    let+ c := py_getitem_key result (lit "candidates") in
    let+ c0 := py_getitem_int c 0 in
    let+ content := py_getitem_key c0 (lit "content") in
    let+ parts := py_getitem_key content (lit "parts") in
    let+ p0 := py_getitem_int parts 0 in
    py_getitem_key p0 (lit "text").

Definition summary_try (req : Request) : M pyval :=
  let* response := post req in
  let* _ := lift (raise_for_status response) in
  let* result := lift (response_json response) in
  lift (extract_summary result).

(** The two [except] clauses.  [None] stands for falling out of the handler
    into the next iteration of the loop. *)
Definition summary_except (attempt : Z) (e : exn) : M (option pyval) :=
  match e with
  | HTTPError response =>
      if should_retry attempt response then
        let* _ := sleep (2 ^ attempt) in
        ret None
      else
        raise (PyException
                 [Lit (lit "Failed to generate summary due to API error: ");
                  Lit (text response)])
  | _ =>
      raise (PyException
               [Lit (lit "An unexpected error occurred during summary generation: ");
                Err e])
  end.

(** [for attempt in range(max_retries): ...] and the [raise] after it. *)
Fixpoint summary_attempts (attempts : list Z) (req : Request) : M pyval :=
  match attempts with
  | [] =>
      raise (PyException
               [Lit (lit "Failed to generate summary after multiple retries.")])
  | attempt :: later =>
      let* r := try_except
                  (let* v := summary_try req in ret (Some v))
                  (summary_except attempt) in
      match r with
      | Some summary_text => ret summary_text
      | None => summary_attempts later req
      end
  end.

Definition _call_gemini_api (system_prompt user_query api_key : str) : M pyval :=
  summary_attempts (range max_retries)
    (summary_request system_prompt user_query api_key).

(** ** summarizer.py: [generate_summary] *)

Definition nl2 : str := [newline; newline].

Definition segment_system_prompt : str :=
  lit "You are a segment summarizer. Read the following text chunk from a large document. "
  ++ lit "Generate a detailed, stand-alone summary for this chunk, retaining all key concepts. "
  ++ lit "The summary must be precise and objective. Do not introduce yourself.".

Definition final_system_prompt : str :=
  lit "You are an expert academic assistant. Analyze the provided text from the document "
  ++ lit "and generate a comprehensive, clear, and professional summary suitable for study or analysis. "
  ++ lit "The summary must be approximately 300 words and focus on key arguments, findings, and conclusions. "
  ++ lit "Format the summary as continuous, readable paragraphs.".

Definition segment_user_query (chunk : str) : str :=
  lit "Summarize this segment:" ++ nl2 ++ lit "---" ++ nl2 ++ chunk.

Definition segment_separator : str := nl2 ++ lit "---" ++ nl2.

(** Stage 1, the [for i, chunk in enumerate(chunks)] loop. *)
Definition summarize_segments (chunks : list str) (api_key : str)
  : M (list pyval) :=
  for_each (fun chunk =>
              _call_gemini_api segment_system_prompt
                               (segment_user_query chunk) api_key)
           chunks.

(** The [if len(text_to_summarize) > CHUNK_SIZE: ... else: ...] that
    computes [final_input_text]. *)
Definition final_input_text (text_to_summarize api_key : str) : M str :=
  if len text_to_summarize >? CHUNK_SIZE then
    match chunk_text text_to_summarize CHUNK_SIZE CHUNK_OVERLAP with
    | Some chunks =>
        let* segment_summaries := summarize_segments chunks api_key in
        lift (py_join segment_separator segment_summaries)
    | None => lift Loops
    end
  else ret text_to_summarize.

(** The inner [try] around the file write. *)
Definition save_summary (output_filepath : str) (summary_result : pyval)
  : M unit :=
  try_except (write_file output_filepath summary_result)
    (fun file_error =>
       raise (IOError [Lit (lit "Failed to save summary to ");
                       Lit output_filepath; Lit (lit ": ");
                       Err file_error])).

Definition generate_summary (text_to_summarize output_filepath api_key : str)
  : M pyval :=
  if negb (str_truthy api_key) then
    raise (ValueError (lit "Gemini API Key is required for summarization."))
  else
    try_except
      (let* input := final_input_text text_to_summarize api_key in
       let* summary_result :=
         _call_gemini_api final_system_prompt input api_key in
       let* _ := save_summary output_filepath summary_result in
       ret summary_result)
      (fun e => raise e).

(** ** [print]

    What [print] writes to [sys.stdout] is outside the model.  The call
    matters all the same: it raises [UnicodeEncodeError] when the stream
    cannot encode the text (a lone surrogate on a UTF-8 stream, any
    character outside the code page on others).  [encodes c] says whether
    the stream encodes the code point [c]; ASCII is taken to be encodable
    on every stream, so that a [print] of ASCII literals and integers
    never raises and is left out of the model. *)
Definition printable (encodes : N -> bool) (s : str) : bool :=
  forallb (fun c => (c <? 128)%N || encodes c) s.

Definition py_print (encodes : N -> bool) (s : str) : outcome unit :=
  if printable encodes s then Ok tt else Raise UnicodeEncodeError.

(** ** quizgenerator.py *)

(** What [json.loads] makes of a string: the decoded value, or one of the
    exceptions it raises: [json.JSONDecodeError] for a text that is not
    JSON, [RecursionError] for one nested too deeply, [ValueError] for an
    integer with more digits than the interpreter converts. *)
Inductive loads_result :=
| Decoded (v : pyval)
| NotJSON
| NestedTooDeep
| TooManyDigits (msg : str).

Section QuizGenerator.

(** [json.loads]; which code points [sys.stdout] encodes; and the exception
    [json.dumps(quiz_data, indent=2)] raises on a value, if any (a
    [RecursionError] on one nested too deeply for the encoder). *)
Variable json_loads : str -> loads_result.
Variable stdout_encodes : N -> bool.
Variable dumps_fault : pyval -> option exn.

Definition quiz_payload (user_query : str) (schema : pyval)
    (system_prompt : str) : pyval :=
  PDict [
    (lit "contents",
       PList [PDict [(lit "parts", PList [PDict [(lit "text", PStr user_query)]])]]);
    (lit "systemInstruction",
       PDict [(lit "parts", PList [PDict [(lit "text", PStr system_prompt)]])]);
    (lit "generationConfig",
       PDict [(lit "responseMimeType", PStr (lit "application/json"));
              (lit "responseSchema", schema)])
  ].

Definition quiz_request (user_query : str) (schema : pyval)
    (system_prompt api_key : str) : Request :=
  {| url := api_url api_key; headers := json_headers;
     data := quiz_payload user_query schema system_prompt;
     timeout := Some 60 |}.

(** [{"questions": []}] *)
Definition empty_quiz : pyval := PDict [(lit "questions", PList [])].

Definition is_dict (v : pyval) : bool :=
  match v with PDict _ => true | _ => false end.

(** [result.get('candidates') and result['candidates'][0].get('content')
    and result['candidates'][0]['content'].get('parts')] as a condition. *)
Definition has_parts (result : pyval) : outcome bool :=
  let+ candidates := py_get result (lit "candidates") PNone in
  if negb (py_truthy candidates) then Ok false
  else
    let+ c := py_getitem_key result (lit "candidates") in
    let+ c0 := py_getitem_int c 0 in
    let+ content := py_get c0 (lit "content") PNone in
    if negb (py_truthy content) then Ok false
    else
      let+ c := py_getitem_key result (lit "candidates") in
      let+ c0 := py_getitem_int c 0 in
      let+ content := py_getitem_key c0 (lit "content") in
      let+ parts := py_get content (lit "parts") PNone in
      Ok (py_truthy parts).

(** [result['candidates'][0]['content']['parts'][0].get('text', '{}').strip()] *)
Definition payload_text (result : pyval) : outcome str :=
  let+ c := py_getitem_key result (lit "candidates") in
  let+ c0 := py_getitem_int c 0 in
  let+ content := py_getitem_key c0 (lit "content") in
  let+ parts := py_getitem_key content (lit "parts") in
  let+ p0 := py_getitem_int parts 0 in
  let+ t := py_get p0 (lit "text") (PStr (lit "{}")) in
  py_strip t.

(** The two [if]s that follow [json.loads]. *)
Definition normalize_quiz (parsed : pyval) : outcome pyval :=
  let parsed := if negb (is_dict parsed) then empty_quiz else parsed in
  let+ has := py_contains (lit "questions") parsed in
  Ok (if negb has then empty_quiz else parsed).

(** The text of [print("\n=== RAW GEMINI QUIZ OUTPUT ===\n",
    json_string[:500], "...\n")]. *)
Definition raw_output_text (json_string : str) : str :=
  [newline] ++ lit "=== RAW GEMINI QUIZ OUTPUT ===" ++ [newline]
  ++ lit " " ++ slice json_string 0 500 ++ lit " ..." ++ [newline; newline].

(** The text of the [print] in the handler of [json.JSONDecodeError]: a
    warning sign (U+26A0, U+FE0F), the message and the whole payload. *)
Definition malformed_text (json_string : str) : str :=
  [9888; 65039]%N ++ lit " Gemini returned malformed JSON: " ++ json_string
  ++ [newline].

(** The body of the outer [try] after the response has passed
    [raise_for_status].  The inner [try] catches [json.JSONDecodeError]
    only; its handler prints before it returns. *)
Definition extract_quiz (result : pyval) : outcome pyval :=
  let+ ok := has_parts result in
  if ok then
    let+ json_string := payload_text result in
    let+ _ := py_print stdout_encodes (raw_output_text json_string) in
    match json_loads json_string with
    | Decoded parsed => normalize_quiz parsed
    | NotJSON =>
        let+ _ := py_print stdout_encodes (malformed_text json_string) in
        Ok empty_quiz
    | NestedTooDeep => Raise RecursionError
    | TooManyDigits msg => Raise (ValueError msg)
    end
  else
    let+ prompt_feedback := py_get result (lit "promptFeedback") (PDict []) in
    let+ feedback := py_get prompt_feedback (lit "blockReason")
                       (PStr (lit "Unknown reason")) in
    Raise (PyException
             [Lit (lit "API returned an invalid or empty response structure. Blocking reason: ");
              Val feedback]).

Definition quiz_try (req : Request) : M pyval :=
  let* response := post req in
  let* _ := lift (raise_for_status response) in
  let* result := lift (response_json response) in
  lift (extract_quiz result).

(** The two [except] clauses.  The [print] of the second one writes an
    ASCII literal. *)
Definition quiz_except (attempt : Z) (e : exn) : M (option pyval) :=
  match e with
  | HTTPError response =>
      if should_retry attempt response then
        let* _ := sleep (2 ^ attempt) in
        ret None
      else
        raise (PyException
                 [Lit (lit "Failed to generate quiz due to API error: ");
                  Lit (text response)])
  | _ =>
      raise (PyException
               [Lit (lit "An unexpected error occurred during API call: ");
                Err e])
  end.

Fixpoint quiz_attempts (attempts : list Z) (req : Request) : M pyval :=
  match attempts with
  | [] =>
      raise (PyException
               [Lit (lit "Failed to generate quiz after multiple retries.")])
  | attempt :: later =>
      let* r := try_except
                  (let* v := quiz_try req in ret (Some v))
                  (quiz_except attempt) in
      match r with
      | Some parsed => ret parsed
      | None => quiz_attempts later req
      end
  end.

Definition _call_gemini_api_structured (user_query : str) (schema : pyval)
    (system_prompt api_key : str) : M pyval :=
  quiz_attempts (range max_retries)
    (quiz_request user_query schema system_prompt api_key).

Definition ty (name : string) : str * pyval := (lit "type", PStr (lit name)).

Definition quiz_schema : pyval :=
  PDict [
    ty "OBJECT";
    (lit "properties", PDict [
       (lit "questions", PDict [
          ty "ARRAY";
          (lit "items", PDict [
             ty "OBJECT";
             (lit "properties", PDict [
                (lit "questionNumber", PDict [ty "INTEGER"]);
                (lit "question", PDict [ty "STRING"]);
                (lit "imageUrl", PDict [ty "STRING"]);
                (lit "answerOptions", PDict [
                   ty "ARRAY";
                   (lit "items", PDict [
                      ty "OBJECT";
                      (lit "properties", PDict [
                         (lit "text", PDict [ty "STRING"]);
                         (lit "rationale", PDict [ty "STRING"]);
                         (lit "isCorrect", PDict [ty "BOOLEAN"])])])]);
                (lit "hint", PDict [ty "STRING"])]);
             (lit "propertyOrdering",
                PList [PStr (lit "questionNumber"); PStr (lit "question");
                       PStr (lit "imageUrl"); PStr (lit "answerOptions");
                       PStr (lit "hint")])])])]);
    (lit "propertyOrdering", PList [PStr (lit "questions")])
  ].

Definition quiz_system_prompt (num_questions : Z) (difficulty : str) : str :=
  lit "You are a test generator. Your task is to create exactly **"
  ++ str_of_int num_questions
  ++ lit "** multiple-choice questions (MCQs) "
  ++ lit "with 4 options each, based *only* on the content provided by the user. "
  ++ lit "The difficulty level for these questions must be **"
  ++ difficulty ++ lit "**. "
  ++ lit "Ensure the questions cover key facts, concepts, and conclusions from the text. "
  ++ lit "For each question, provide a detailed rationale for every option and set exactly one option as correct. "
  ++ lit "The questions should test comprehension and critical thinking, not just simple recall. "
  ++ lit "Set the 'imageUrl' property to an empty string. The output MUST strictly follow the provided JSON schema.".

Definition quiz_user_query (source_content : str) : str :=
  lit "Generate a quiz based on the following text:" ++ nl2 ++ lit "---" ++ nl2
  ++ source_content.

(** The body of [for i, q in enumerate(...)], from index [i] on. *)
Fixpoint renumber_from (i : Z) (items : list pyval) : outcome (list pyval) :=
  match items with
  | [] => Ok []
  | q :: rest =>
      let+ q' := py_setitem_key q (lit "questionNumber") (PInt (i + 1)) in
      let+ rest' := renumber_from (i + 1) rest in
      Ok (q' :: rest')
  end.

(** The renumbering loop.  The dictionaries it updates are the elements of
    the list that [quiz_data] holds under ['questions'], so the update shows
    in [quiz_data]; the default [[]] of [get] is a list of its own. *)
Definition renumber_questions (quiz_data : pyval) : outcome pyval :=
  let+ questions := py_get quiz_data (lit "questions") (PList []) in
  let+ items := py_iter questions in
  let+ items' := renumber_from 0 items in
  Ok (match quiz_data, questions with
      | PDict d, PList _ =>
          if bool_decide (is_Some (dict_lookup (lit "questions") d))
          then PDict (dict_set (lit "questions") (PList items') d)
          else quiz_data
      | _, _ => quiz_data
      end).

(** The text of [print(f"Generating {num_questions} {difficulty} quiz...")]. *)
Definition generating_text (num_questions : Z) (difficulty : str) : str :=
  lit "Generating " ++ str_of_int num_questions ++ lit " " ++ difficulty
  ++ lit " quiz..." ++ [newline].

(** [print("DEBUG QUIZ DATA:", json.dumps(quiz_data, indent=2))].
    [json.dumps] escapes every character outside ASCII, so its text is
    printable; what can fail is [json.dumps] itself. *)
Definition debug_dump (quiz_data : pyval) : outcome unit :=
  match dumps_fault quiz_data with
  | Some e => Raise e
  | None => Ok tt
  end.

Definition create_quiz_from_text (source_content : str) (num_questions : Z)
    (difficulty api_key : str) : M pyval :=
  if negb (str_truthy (strip source_content)) then
    raise (ValueError (lit "Source content for quiz generation is empty."))
  else if negb (str_truthy api_key) then
    raise (ValueError (lit "Gemini API Key is required for quiz generation."))
  else
    let* _ := lift (py_print stdout_encodes
                      (generating_text num_questions difficulty)) in
    let* quiz_data :=
      _call_gemini_api_structured (quiz_user_query source_content) quiz_schema
        (quiz_system_prompt num_questions difficulty) api_key in
    let* quiz_data := lift (renumber_questions quiz_data) in
    let* _ := lift (debug_dump quiz_data) in
    ret quiz_data.

End QuizGenerator.

(** ** Vocabulary for the retry policy *)

(** What the [k]-th POST of a call that starts in world [w] gets. *)
Definition reply (w : World) (req : Request) (k : nat) : PostOutcome :=
  transport w (count_posts (trace w) + k) req.

(** The statuses for which [raise_for_status] raises. *)
Definition http_error_status (s : Z) : bool := (400 <=? s) && (s <? 600).

(** Status 429 or at least 500. *)
Definition retry_status (s : Z) : bool := (s =? 429) || (s >=? 500).

(** The events of one, two and three attempts. *)
Definition one_attempt (req : Request) : list event := [EvPost req].
Definition two_attempts (req : Request) : list event :=
  [EvPost req; EvSleep 1; EvPost req].
Definition three_attempts (req : Request) : list event :=
  [EvPost req; EvSleep 1; EvPost req; EvSleep 2; EvPost req].

(** The retry policy of a call that sends [req] and reports an HTTP error
    with the message [error_prefix] followed by the response body. *)
Definition follows_retry_policy (call : M pyval) (req : Request)
    (error_prefix : str) : Prop :=
  forall w, exists evs,
    trace (call w).2 = trace w ++ evs /\
    (* one to three attempts, 1s before the second and 2s before the third *)
    (evs = one_attempt req \/ evs = two_attempts req
     \/ evs = three_attempts req) /\
    (* an attempt is followed by another only after a status 429 or >= 500 *)
    (forall k, (S k < count_posts evs)%nat ->
       exists r, reply w req k = PostReturns r /\
                 retry_status (status_code r) = true) /\
    (* the first and the second attempt are retried on 429 and on 5xx *)
    (forall k r, (k < count_posts evs)%nat -> (k < 2)%nat ->
       reply w req k = PostReturns r ->
       http_error_status (status_code r) = true ->
       retry_status (status_code r) = true ->
       (S k < count_posts evs)%nat) /\
    (* an HTTP error status on the last attempt made is raised with the body *)
    (forall r, reply w req (count_posts evs - 1) = PostReturns r ->
       http_error_status (status_code r) = true ->
       (call w).1 = Raise (PyException [Lit error_prefix; Lit (text r)])).

(** A response the handler answers with a sleep and another attempt (when
    the attempt is not the third): an HTTP error with status 429 or 5xx. *)
Definition retryable (r : Response) : Prop :=
  http_error_status (status_code r) = true /\
  retry_status (status_code r) = true.

(** The call that starts in [w] gets [r], a response that is no HTTP error,
    on its first attempt, or on the second or third after retryable
    responses. *)
Definition answered_by (w : World) (req : Request) (r : Response) : Prop :=
  http_error_status (status_code r) = false /\
  (reply w req 0 = PostReturns r \/
   (exists r0,
      reply w req 0 = PostReturns r0 /\ retryable r0 /\
      reply w req 1 = PostReturns r) \/
   (exists r0 r1,
      reply w req 0 = PostReturns r0 /\ retryable r0 /\
      reply w req 1 = PostReturns r1 /\ retryable r1 /\
      reply w req 2 = PostReturns r)).

(** An exception raised inside the [try] and caught by [except Exception]
    comes out wrapped in a new [Exception]. *)
Definition wrap_unexpected (unexpected_prefix : str) (o : outcome pyval)
  : outcome pyval :=
  match o with
  | Ok v => Ok v
  | Raise e => Raise (PyException [Lit unexpected_prefix; Err e])
  | Loops => Loops
  end.

(** What an attempt makes of a response that passed [raise_for_status]. *)
Definition summary_finish (r : Response) : outcome pyval :=
  let+ result := response_json r in extract_summary result.

Definition quiz_finish (json_loads : str -> loads_result)
    (stdout_encodes : N -> bool) (r : Response) : outcome pyval :=
  let+ result := response_json r in
  extract_quiz json_loads stdout_encodes result.

(** ** Vocabulary for one iteration of a retry loop *)

(** What one pass through the [try] and its handlers does, by the reply the
    POST gets. *)
Definition attempt_cases (req : Request) (error_prefix unexpected_prefix : str)
    (finish : Response -> outcome pyval) (attempt_m : Z -> M (option pyval))
    (attempt : Z) (w : World) : Prop :=
  attempt_m attempt w =
  match transport w (count_posts (trace w)) req with
  | PostRaises detail =>
      (Raise (PyException [Lit unexpected_prefix; Err (RequestException detail)]),
       log (EvPost req) w)
  | PostReturns r =>
      if http_error_status (status_code r) then
        if should_retry attempt r
        then (Ok None, log (EvSleep (2 ^ attempt)) (log (EvPost req) w))
        else (Raise (PyException [Lit error_prefix; Lit (text r)]),
              log (EvPost req) w)
      else
        (match finish r with
         | Ok v => Ok (Some v)
         | Raise e => Raise (PyException [Lit unexpected_prefix; Err e])
         | Loops => Loops
         end, log (EvPost req) w)
  end.

(** An attempt that does not go on to the next one. *)
Definition last_attempt (req : Request) (error_prefix unexpected_prefix : str)
    (finish : Response -> outcome pyval)
    (attempt : Z) (w : World) (o : outcome pyval) : Prop :=
  match transport w (count_posts (trace w)) req with
  | PostRaises detail =>
      o = Raise (PyException
                   [Lit unexpected_prefix; Err (RequestException detail)])
  | PostReturns r =>
      if http_error_status (status_code r)
      then should_retry attempt r = false /\
           o = Raise (PyException [Lit error_prefix; Lit (text r)])
      else o = match finish r with
               | Ok v => Ok v
               | Raise e => Raise (PyException [Lit unexpected_prefix; Err e])
               | Loops => Loops
               end
  end.

(** The outcome is not an [HTTPError]: only [raise_for_status] raises
    one. *)
Definition no_http_error {A} (o : outcome A) : Prop :=
  forall r, o <> Raise (HTTPError r).

(** The outcome is a value or an exception. *)
Definition settles {A} (o : outcome A) : Prop := o <> Loops.

(** ** Vocabulary for the summarizer and the quiz generator *)

(** The exception [generate_summary] raises when the summary cannot be
    saved. *)
Definition save_error (output_filepath : str) (file_error : exn) : exn :=
  IOError [Lit (lit "Failed to save summary to "); Lit output_filepath;
           Lit (lit ": "); Err file_error].

(** The errors raised for a missing credential. *)
Definition credential_error (e : exn) : Prop :=
  e = ValueError (lit "Gemini API Key is required for summarization.") \/
  e = ValueError (lit "Gemini API Key is required for quiz generation.").

(** What a quiz holds under ['questions']. *)
Definition questions_of (quiz : pyval) : option pyval :=
  match quiz with
  | PDict d => dict_lookup (lit "questions") d
  | _ => None
  end.

(** The values under ['questions'] the renumbering loop cannot go through:
    those that are not iterable, and strings with a first character. *)
Definition not_renumberable (v : pyval) : Prop :=
  match v with
  | PNone | PBool _ | PInt _ | PFloat _ => True
  | PStr (_ :: _) => True
  | _ => False
  end.

(** Stand-ins for [json.loads] in examples: one that rejects every text,
    one that decodes every text to [v]. *)
Definition rejects_all : str -> loads_result := fun _ => NotJSON.
Definition decodes_to (v : pyval) : str -> loads_result := fun _ => Decoded v.

(** A standard output in UTF-8: it encodes every code point but the
    surrogates.  And a [json.dumps] that never raises. *)
Definition utf8_stdout : N -> bool :=
  fun c => negb ((55296 <=? c) && (c <=? 57343))%N.
Definition dumps_fine : pyval -> option exn := fun _ => None.

Definition question (number : Z) (wording : string) : pyval :=
  PDict [(lit "questionNumber", PInt number);
         (lit "question", PStr (lit wording))].

Definition three_questions : pyval :=
  PDict [(lit "questions",
          PList [question 3 "first"; question 1 "second";
                 question 2 "third"])].

Definition always (r : Response) : nat -> PostOutcome := fun _ => PostReturns r.

(** ** Inputs used in examples *)

(** Twenty characters with a full stop at index 5. *)
Definition stop_at_5 : str := lit "aaaaa.aaaaaaaaaaaaaa".

(** A well-formed response envelope whose text part is [payload]. *)
Definition envelope (payload : pyval) : pyval :=
  PDict [(lit "candidates",
          PList [PDict [(lit "content",
                         PDict [(lit "parts",
                                 PList [PDict [(lit "text", payload)]])])]])].

Definition rate_limited : Response :=
  {| status_code := 429; text := lit "slow down"; json := None |}.

Definition answer (payload : pyval) : Response :=
  {| status_code := 200; text := []; json := Some (envelope payload) |}.

(** A world whose endpoint gives the [n]-th POST the reply [replies n],
    with a working, empty file system. *)
Definition mock_world (replies : nat -> PostOutcome) : World :=
  {| transport := fun n _ => replies n; fs_fault := fun _ => None;
     files := ∅; trace := [] |}.

(** Status 429 twice, then the answer. *)
Definition twice_429_then (payload : pyval) (n : nat) : PostOutcome :=
  match n with
  | 0%nat | 1%nat => PostReturns rate_limited
  | _ => PostReturns (answer payload)
  end.

(** * Properties of [chunk_text] *)

Section Chunking.

Variables (text : str) (max_chunk_size overlap : Z).

Lemma len_nonneg (s : str) : 0 <= len s.
Proof. unfold len. lia. Qed.

Lemma rfind_scan_range (s : str) c lo hi i :
  0 <= i ->
  rfind_scan s c lo hi i = -1 \/
  (lo <= rfind_scan s c lo hi i < hi /\
   i <= rfind_scan s c lo hi i < i + len s).
Proof.
  revert i. induction s as [|x rest IH]; intros i Hi; simpl.
  - now left.
  - destruct (IH (i + 1)) as [E | [H1 H2]]; [lia | |].
    + rewrite E. simpl.
      destruct ((lo <=? i) && (i <? hi) && (x =? c)%N) eqn:T; [|now left].
      right. unfold len. simpl length. 
      apply andb_prop in T as [T _]. apply andb_prop in T as [T1 T2]. lia.
    + destruct (0 <=? rfind_scan rest c lo hi (i + 1)) eqn:T.
      * right. unfold len in *. simpl length. lia.
      * lia.
Qed.

Lemma rfind_range (s : str) c start end_ :
  0 <= start -> end_ <= len s -> 0 <= end_ ->
  rfind s c start end_ = -1 \/ start <= rfind s c start end_ < end_.
Proof.
  intros Hs He He0. unfold rfind, adjust_index.
  destruct (end_ >? len s) eqn:E1; [lia|].
  destruct (end_ <? 0) eqn:E2; [lia|].
  destruct (start <? 0) eqn:E3; [lia|].
  destruct (rfind_scan_range s c start end_ 0) as [E | [H _]]; [lia | now left | now right].
Qed.

Lemma slice_all (s : str) : slice s 0 (len s) = s.
Proof.
  unfold slice, adjust_index. pose proof (len_nonneg s).
  rewrite Z.ltb_irrefl.
  destruct (len s <? 0) eqn:E; [lia|].
  replace (Z.min (len s) (len s) - Z.min 0 (len s)) with (len s) by lia.
  replace (Z.min 0 (len s)) with 0 by lia.
  unfold len. rewrite Nat2Z.id. simpl. apply firstn_all.
Qed.

(** The cut of an iteration lies in the text, after [start]. *)
Lemma chunk_end_range start :
  0 <= overlap -> overlap < max_chunk_size ->
  0 <= start < len text ->
  start < chunk_end text max_chunk_size overlap start <= len text.
Proof.
  intros Ho Hm Hs. unfold chunk_end.
  set (e0 := Z.min (start + max_chunk_size) (len text)).
  assert (He0 : start < e0 <= len text) by (unfold e0; lia).
  destruct (e0 <? len text) eqn:E; [|lia].
  destruct (rfind_range text period start e0) as [P | P]; try lia;
  destruct (rfind_range text newline start e0) as [Q | Q]; try lia;
  destruct (_ >? _) eqn:G; try apply Z.gtb_lt in G; lia.
Qed.

(** Every iteration moves [start] forward. *)
Lemma next_start_progress start :
  overlap < max_chunk_size -> 2 * overlap <= max_chunk_size + 1 ->
  start < len text ->
  start < next_start text overlap (chunk_end text max_chunk_size overlap start).
Proof.
  intros Hm H2 Hs. unfold next_start, chunk_end.
  set (e0 := Z.min (start + max_chunk_size) (len text)).
  set (bp := Z.max _ _).
  repeat case_match; lia.
Qed.


(** With enough fuel the loop finishes, from any [start]. *)
Lemma chunk_loop_finishes fuel start chunks :
  overlap < max_chunk_size -> 2 * overlap <= max_chunk_size + 1 ->
  (Z.to_nat (len text - start) < fuel)%nat ->
  exists result,
    chunk_loop fuel text max_chunk_size overlap start chunks = Some result.
Proof.
  intros Hm H2. revert start chunks.
  induction fuel as [|fuel IH]; intros start chunks Hf; [lia|].
  simpl. destruct (start <? len text) eqn:E; [|eauto].
  apply IH. pose proof (next_start_progress start Hm H2). lia.
Qed.

(** The chunks are those of the spans, appended in order. *)
Lemma chunk_loop_spans fuel start chunks :
  chunk_loop fuel text max_chunk_size overlap start chunks =
  match chunk_spans fuel text max_chunk_size overlap start with
  | Some spans =>
      Some (fold_left
              (fun acc se => append_chunk acc (strip (slice text se.1 se.2)))
              spans chunks)
  | None => None
  end.
Proof.
  revert start chunks. induction fuel as [|fuel IH]; intros start chunks.
  - reflexivity.
  - simpl. destruct (start <? len text); [|reflexivity].
    rewrite IH. now destruct (chunk_spans fuel _ _ _ _).
Qed.

(** More fuel than needed changes nothing. *)
Lemma chunk_loop_more_fuel fuel fuel' start chunks result :
  chunk_loop fuel text max_chunk_size overlap start chunks = Some result ->
  (fuel <= fuel')%nat ->
  chunk_loop fuel' text max_chunk_size overlap start chunks = Some result.
Proof.
  revert fuel' start chunks.
  induction fuel as [|fuel IH]; intros fuel' start chunks H Hle; [discriminate|].
  destruct fuel' as [|fuel']; [lia|].
  simpl in *. destruct (start <? len text); [|assumption].
  apply IH; [assumption | lia].
Qed.

(** What the spans of a finished loop look like, from any [start] inside
    the text. *)
Lemma chunk_spans_shape fuel start spans :
  0 <= overlap -> overlap < max_chunk_size ->
  2 * overlap <= max_chunk_size + 1 ->
  0 <= start ->
  chunk_spans fuel text max_chunk_size overlap start = Some spans ->
  (forall i, start <= i < len text ->
             exists s e, In (s, e) spans /\ s <= i < e) /\
  (forall s e, In (s, e) spans -> start <= s /\ s < e <= len text) /\
  (forall k s1 e1 s2 e2,
      spans !! k = Some (s1, e1) -> spans !! S k = Some (s2, e2) ->
      s2 = e1 - overlap /\ s1 < s2).
Proof.
  intros Ho Hm H2. revert start spans.
  induction fuel as [|fuel IH]; intros start spans Hs H; [discriminate|].
  simpl in H. destruct (start <? len text) eqn:E.
  - set (e := chunk_end text max_chunk_size overlap start) in *.
    destruct (chunk_spans fuel _ _ _ _) as [rest|] eqn:R; [|discriminate].
    injection H as <-.
    pose proof (chunk_end_range start Ho Hm ltac:(lia)) as He. fold e in He.
    pose proof (next_start_progress start Hm H2 ltac:(lia)) as Hn. fold e in Hn.
    assert (Hn0 : 0 <= next_start text overlap e) by lia.
    destruct (IH _ _ Hn0 R) as (Hcov & Hin & Hadj).
    split; [|split].
    + intros i Hi. destruct (Z_lt_dec i e) as [L|L].
      * exists start, e. split; [now left | lia].
      * assert (Hi' : next_start text overlap e <= i < len text)
          by (unfold next_start in *; destruct (e <? len text) eqn:T; lia).
        destruct (Hcov i Hi') as (s & e' & I & B). exists s, e'. split; [now right | exact B].
    + intros s e' [I | I].
      * injection I as <- <-. lia.
      * destruct (Hin s e' I). lia.
    + intros [|k] s1 e1 s2 e2 H1 H3; simpl in H1, H3.
      * injection H1 as <- <-.
        destruct rest as [|[s e'] rest']; [discriminate|]. injection H3 as <- <-.
        (* the head of the remaining spans starts at [next_start] *)
        destruct fuel as [|fuel']; [discriminate|]. simpl in R.
        destruct (next_start text overlap e <? len text) eqn:T; [|discriminate].
        destruct (chunk_spans fuel' _ _ _ _); [|discriminate].
        injection R as <- _ _.
        unfold next_start in *. destruct (e <? len text) eqn:T'; lia.
      * eapply Hadj; eassumption.
  - injection H as <-. split; [|split].
    + intros i Hi. lia.
    + intros s e [].
    + intros k s1 e1 s2 e2 H1. now rewrite lookup_nil in H1.
Qed.

End Chunking.

(** C2 (amended). When [overlap < max_chunk_size] and also
    [2 * overlap <= max_chunk_size + 1], every iteration of the loop of
    [chunk_text] moves [start] strictly forward, and the loop finishes:
    [len(text) + 1] iterations are enough, and more fuel gives the same
    chunks. *)
Theorem chunk_text_progress (text : str) (max_chunk_size overlap : Z) :
  overlap < max_chunk_size -> 2 * overlap <= max_chunk_size + 1 ->
  (forall start, start < len text ->
     start < next_start text overlap
               (chunk_end text max_chunk_size overlap start)) /\
  (exists chunks,
     chunk_text text max_chunk_size overlap = Some chunks /\
     forall fuel, (length text < fuel)%nat ->
       chunk_text_fuel fuel text max_chunk_size overlap = Some chunks).
Proof.
  intros Hm H2. split.
  - intros start Hs. now apply next_start_progress.
  - destruct (chunk_loop_finishes text max_chunk_size overlap
                (S (length text)) 0 [] Hm H2) as [chunks Hc].
    { unfold len. lia. }
    exists chunks. split; [exact Hc|].
    intros fuel Hf. unfold chunk_text_fuel.
    eapply chunk_loop_more_fuel; [exact Hc | lia].
Qed.

Lemma chunk_text_progress_witness :
  (3 < 10 /\ 2 * 3 <= 10 + 1) /\
  (forall start, start < len stop_at_5 ->
     start < next_start stop_at_5 3 (chunk_end stop_at_5 10 3 start)) /\
  (exists chunks,
     chunk_text stop_at_5 10 3 = Some chunks /\
     forall fuel, (length stop_at_5 < fuel)%nat ->
       chunk_text_fuel fuel stop_at_5 10 3 = Some chunks).
Proof.
  split; [lia|]. apply (chunk_text_progress stop_at_5 10 3); lia.
Defined.

(** With the default parameters the loop always finishes. *)
Lemma chunk_text_default_total (text : str) :
  exists chunks, chunk_text text CHUNK_SIZE CHUNK_OVERLAP = Some chunks.
Proof.
  destruct (chunk_loop_finishes text CHUNK_SIZE CHUNK_OVERLAP
              (S (length text)) 0 []) as [chunks Hc];
    try (unfold CHUNK_SIZE, CHUNK_OVERLAP, len; lia).
  now exists chunks.
Qed.

(** On [stop_at_5] with [max_chunk_size = 10] and [overlap = 6] the first
    iteration cuts [[0, 6)] and sets [start] to 0 again. *)
Lemma stop_at_5_step :
  (0 <? len stop_at_5) = true /\
  chunk_end stop_at_5 10 6 0 = 6 /\
  next_start stop_at_5 6 6 = 0.
Proof. repeat split; vm_compute; reflexivity. Qed.

Lemma stop_at_5_loops fuel chunks :
  chunk_loop fuel stop_at_5 10 6 0 chunks = None.
Proof.
  revert chunks. induction fuel as [|fuel IH]; intros chunks; [reflexivity|].
  destruct stop_at_5_step as (H0 & He & Hn).
  change (chunk_loop (S fuel) stop_at_5 10 6 0 chunks)
    with (if 0 <? len stop_at_5
          then chunk_loop fuel stop_at_5 10 6
                 (next_start stop_at_5 6 (chunk_end stop_at_5 10 6 0))
                 (append_chunk chunks
                    (strip (slice stop_at_5 0 (chunk_end stop_at_5 10 6 0))))
          else Some chunks).
  rewrite H0, He, Hn. apply IH.
Qed.

Lemma stop_at_5_spans_cut n :
  spans_cut n stop_at_5 10 6 0 = repeat (0, 6) n.
Proof.
  induction n as [|n IH]; [reflexivity|].
  destruct stop_at_5_step as (H0 & He & Hn).
  change (spans_cut (S n) stop_at_5 10 6 0)
    with (if 0 <? len stop_at_5
          then (0, chunk_end stop_at_5 10 6 0)
                 :: spans_cut n stop_at_5 10 6
                      (next_start stop_at_5 6 (chunk_end stop_at_5 10 6 0))
          else []).
  rewrite H0, He, Hn, IH. reflexivity.
Qed.

(** C2, as stated, fails: [overlap = 6 < 10 = max_chunk_size], yet the
    iteration that begins at 0 sets [start] to 0 again, and the loop finishes
    for no amount of fuel. *)
Lemma chunk_text_no_progress :
  6 < 10 /\
  next_start stop_at_5 6 (chunk_end stop_at_5 10 6 0) = 0 /\
  ~ (exists fuel chunks, chunk_text_fuel fuel stop_at_5 10 6 = Some chunks).
Proof.
  split; [lia|]. split; [vm_compute; reflexivity|].
  intros (fuel & chunks & H). unfold chunk_text_fuel in H.
  now rewrite stop_at_5_loops in H.
Qed.

(** C3 (amended). When [0 <= overlap < max_chunk_size] and
    [2 * overlap <= max_chunk_size + 1], the loop finishes; its spans lie in
    the text, are not empty, and together cover every index of
    [[0, len(text))]; each span after the first begins exactly [overlap]
    characters before the end of the one before it, so never after that end
    and strictly before it when [overlap > 0]; and the chunks returned are
    the trimmed slices of these spans, in order. *)
Theorem chunk_spans_cover (text : str) (max_chunk_size overlap : Z) :
  0 <= overlap -> overlap < max_chunk_size ->
  2 * overlap <= max_chunk_size + 1 ->
  exists spans,
    chunk_spans (S (length text)) text max_chunk_size overlap 0 = Some spans /\
    chunk_text text max_chunk_size overlap = Some (chunks_of_spans text spans) /\
    (forall i, 0 <= i < len text ->
       exists s e, In (s, e) spans /\ s <= i < e) /\
    (forall s e, In (s, e) spans -> 0 <= s /\ s < e <= len text) /\
    (forall k s1 e1 s2 e2,
       spans !! k = Some (s1, e1) -> spans !! S k = Some (s2, e2) ->
       s2 = e1 - overlap /\ s2 <= e1 /\ (0 < overlap -> s2 < e1)).
Proof.
  intros Ho Hm H2.
  destruct (chunk_loop_finishes text max_chunk_size overlap
              (S (length text)) 0 [] Hm H2) as [chunks Hc].
  { unfold len. lia. }
  pose proof Hc as Hc'. rewrite chunk_loop_spans in Hc'.
  destruct (chunk_spans _ _ _ _ _) as [spans|] eqn:S; [|discriminate].
  injection Hc' as <-.
  exists spans. split; [reflexivity|]. split; [exact Hc|].
  destruct (chunk_spans_shape text max_chunk_size overlap _ 0 spans
              Ho Hm H2 ltac:(lia) S) as (Hcov & Hin & Hadj).
  split; [exact Hcov|]. split; [exact Hin|].
  intros k s1 e1 s2 e2 H1 H3.
  destruct (Hadj k s1 e1 s2 e2 H1 H3) as [-> _]. lia.
Qed.

Lemma chunk_spans_cover_witness :
  (0 <= 3 /\ 3 < 10 /\ 2 * 3 <= 10 + 1) /\
  exists spans,
    chunk_spans (S (length stop_at_5)) stop_at_5 10 3 0 = Some spans /\
    chunk_text stop_at_5 10 3 = Some (chunks_of_spans stop_at_5 spans) /\
    (forall i, 0 <= i < len stop_at_5 ->
       exists s e, In (s, e) spans /\ s <= i < e) /\
    (forall s e, In (s, e) spans -> 0 <= s /\ s < e <= len stop_at_5) /\
    (forall k s1 e1 s2 e2,
       spans !! k = Some (s1, e1) -> spans !! S k = Some (s2, e2) ->
       s2 = e1 - 3 /\ s2 <= e1 /\ (0 < 3 -> s2 < e1)).
Proof.
  split; [lia|]. apply (chunk_spans_cover stop_at_5 10 3); lia.
Defined.

(** C3, as stated, fails: with [overlap = 6 < 10 = max_chunk_size] on
    [stop_at_5] every span the loop ever cuts is [[0, 6)], so index 10 of the
    text is in none of them, and the loop never finishes. *)
Lemma chunk_spans_leave_gap :
  6 < 10 /\ 0 <= 10 < len stop_at_5 /\
  ~ (exists n s e, In (s, e) (spans_cut n stop_at_5 10 6 0) /\ s <= 10 < e) /\
  ~ (exists fuel spans, chunk_spans fuel stop_at_5 10 6 0 = Some spans).
Proof.
  split; [lia|]. split; [vm_compute; split; congruence|]. split.
  - intros (n & s & e & I & B). rewrite stop_at_5_spans_cut in I.
    apply repeat_spec in I. injection I as -> ->. lia.
  - intros (fuel & spans & H).
    pose proof (stop_at_5_loops fuel []) as L.
    rewrite chunk_loop_spans, H in L. discriminate.
Qed.

(** A negative [overlap] skips characters: the reason for [0 <= overlap]. *)
Remark negative_overlap_skips :
  chunk_spans 11 (lit "abcdefghij") 3 (-1) 0 = Some [(0, 3); (4, 7); (8, 10)].
Proof. vm_compute. reflexivity. Qed.

(** Appending the kept chunks one by one is filtering out the empty ones. *)
Lemma fold_append_chunk {A} (f : A -> str) (xs : list A) (acc : list str) :
  fold_left (fun acc x => append_chunk acc (f x)) xs acc =
  acc ++ List.filter str_truthy (map f xs).
Proof.
  revert acc. induction xs as [|x xs IH]; intros acc; simpl.
  - now rewrite app_nil_r.
  - rewrite IH. unfold append_chunk. destruct (str_truthy (f x)); [|reflexivity].
    now rewrite <- app_assoc.
Qed.

Lemma chunks_of_spans_filter (text : str) (spans : list (Z * Z)) :
  chunks_of_spans text spans =
  List.filter str_truthy (map (fun se => strip (slice text se.1 se.2)) spans).
Proof. unfold chunks_of_spans. now rewrite fold_append_chunk. Qed.

(** C8 (amended). On the empty text [chunk_text] gives no chunk; on a text
    shorter than [max_chunk_size] it gives exactly one chunk, the trimmed
    text, when the text does not trim to the empty string, and no chunk when
    it does; and in general the chunks are the trimmed slices of the spans
    with the empty ones dropped, so no chunk is ever empty. *)
Theorem chunk_text_edge_cases (text : str) (max_chunk_size overlap : Z) :
  chunk_text [] max_chunk_size overlap = Some [] /\
  (len text < max_chunk_size ->
     chunk_text text max_chunk_size overlap =
       Some (if str_truthy (strip text) then [strip text] else [])) /\
  (forall fuel chunks,
     chunk_text_fuel fuel text max_chunk_size overlap = Some chunks ->
     (exists spans,
        chunk_spans fuel text max_chunk_size overlap 0 = Some spans /\
        chunks = List.filter str_truthy
                   (map (fun se => strip (slice text se.1 se.2)) spans)) /\
     ~ In [] chunks).
Proof.
  split; [reflexivity|]. split.
  - intros Hlen. unfold chunk_text, chunk_text_fuel.
    destruct (Z.eq_dec (len text) 0) as [Hz|Hz].
    { destruct text; [reflexivity | unfold len in Hz; simpl in Hz; lia]. }
    pose proof (len_nonneg text) as Hpos.
    assert (He : chunk_end text max_chunk_size overlap 0 = len text).
    { unfold chunk_end. replace (Z.min (0 + max_chunk_size) (len text))
        with (len text) by lia. now rewrite Z.ltb_irrefl. }
    assert (Hn : next_start text overlap (len text) = len text).
    { unfold next_start. now rewrite Z.ltb_irrefl. }
    apply (chunk_loop_more_fuel text max_chunk_size overlap 2);
      [|unfold len in *; lia].
    change (chunk_loop 2 text max_chunk_size overlap 0 [])
      with (if 0 <? len text
            then chunk_loop 1 text max_chunk_size overlap
                   (next_start text overlap
                      (chunk_end text max_chunk_size overlap 0))
                   (append_chunk []
                      (strip (slice text 0
                                (chunk_end text max_chunk_size overlap 0))))
            else Some []).
    replace (0 <? len text) with true by (symmetry; apply Z.ltb_lt; lia).
    rewrite He, Hn, slice_all. simpl. rewrite Z.ltb_irrefl.
    unfold append_chunk. now destruct (str_truthy (strip text)).
  - intros fuel chunks H. unfold chunk_text_fuel in H.
    rewrite chunk_loop_spans in H.
    destruct (chunk_spans _ _ _ _ _) as [spans|]; [|discriminate].
    injection H as <-. fold (chunks_of_spans text spans).
    rewrite chunks_of_spans_filter. split.
    + exists spans. split; reflexivity.
    + intros I. apply filter_In in I as [_ I]. discriminate.
Qed.

Lemma chunk_text_edge_cases_witness :
  len (lit " hi ") < CHUNK_SIZE /\
  chunk_text (lit " hi ") CHUNK_SIZE CHUNK_OVERLAP = Some [lit "hi"].
Proof.
  split; [vm_compute; reflexivity|].
  apply (proj1 (proj2 (chunk_text_edge_cases
                         (lit " hi ") CHUNK_SIZE CHUNK_OVERLAP))).
  vm_compute. reflexivity.
Defined.

(** C8, as stated, fails: a text of one blank is shorter than
    [max_chunk_size], yet [chunk_text] gives no chunk at all, not one. *)
Lemma chunk_text_blank_gives_none :
  len (lit " ") < CHUNK_SIZE /\
  chunk_text (lit " ") CHUNK_SIZE CHUNK_OVERLAP = Some [] /\
  ~ (exists chunk, chunk_text (lit " ") CHUNK_SIZE CHUNK_OVERLAP = Some [chunk]).
Proof.
  split; [vm_compute; reflexivity|]. split; [vm_compute; reflexivity|].
  intros [chunk H]. vm_compute in H. discriminate.
Qed.

(** * The retry loop *)

Lemma count_posts_post t req : count_posts (t ++ [EvPost req]) = S (count_posts t).
Proof.
  unfold count_posts. rewrite filter_app, length_app. simpl. lia.
Qed.

Lemma count_posts_sleep t s : count_posts (t ++ [EvSleep s]) = count_posts t.
Proof.
  unfold count_posts. rewrite filter_app, length_app. simpl. lia.
Qed.

Lemma count_posts_attempts req :
  count_posts (one_attempt req) = 1%nat /\
  count_posts (two_attempts req) = 2%nat /\
  count_posts (three_attempts req) = 3%nat.
Proof. repeat split. Qed.

Ltac count_attempts :=
  repeat match goal with
         | H : context [count_posts (one_attempt ?r)] |- _ =>
             rewrite (proj1 (count_posts_attempts r)) in H
         | H : context [count_posts (two_attempts ?r)] |- _ =>
             rewrite (proj1 (proj2 (count_posts_attempts r))) in H
         | H : context [count_posts (three_attempts ?r)] |- _ =>
             rewrite (proj2 (proj2 (count_posts_attempts r))) in H
         | |- context [count_posts (one_attempt ?r)] =>
             rewrite (proj1 (count_posts_attempts r))
         | |- context [count_posts (two_attempts ?r)] =>
             rewrite (proj1 (proj2 (count_posts_attempts r)))
         | |- context [count_posts (three_attempts ?r)] =>
             rewrite (proj2 (proj2 (count_posts_attempts r)))
         end.

Section RetryLoop.

Variables (req : Request) (error_prefix unexpected_prefix : str).
Variable finish : Response -> outcome pyval.
Variable attempt_m : Z -> M (option pyval).
Variable loop : list Z -> M pyval.

Hypothesis attempt_spec : forall attempt w,
  attempt_cases req error_prefix unexpected_prefix finish attempt_m attempt w.

Hypothesis loop_cons : forall attempt later w,
  loop (attempt :: later) w =
  match attempt_m attempt w with
  | (Ok (Some v), w') => (Ok v, w')
  | (Ok None, w') => loop later w'
  | (Raise e, w') => (Raise e, w')
  | (Loops, w') => (Loops, w')
  end.

(** One iteration: either the loop ends here with one more POST in the
    trace, or the reply was a retryable HTTP error and the loop goes on
    after the POST and the sleep. *)
Lemma loop_step attempt later w :
  (exists o, loop (attempt :: later) w = (o, log (EvPost req) w) /\
             last_attempt req error_prefix unexpected_prefix finish
               attempt w o) \/
  (exists r, transport w (count_posts (trace w)) req = PostReturns r /\
             http_error_status (status_code r) = true /\
             should_retry attempt r = true /\
             loop (attempt :: later) w =
             loop later (log (EvSleep (2 ^ attempt)) (log (EvPost req) w))).
Proof.
  rewrite loop_cons. pose proof (attempt_spec attempt w) as A.
  unfold attempt_cases, last_attempt in *.
  destruct (transport w _ req) as [detail | r].
  - left. rewrite A. eauto.
  - destruct (http_error_status (status_code r)) eqn:H.
    + destruct (should_retry attempt r) eqn:R.
      * right. exists r. rewrite A. auto.
      * left. rewrite A. eauto.
    + left. rewrite A. destruct (finish r); eauto.
Qed.

Lemma should_retry_early attempt r :
  attempt < 2 -> should_retry attempt r = retry_status (status_code r).
Proof.
  intros H. unfold should_retry, retry_status, max_retries.
  replace (attempt <? 3 - 1) with true by (symmetry; apply Z.ltb_lt; lia).
  reflexivity.
Qed.

Lemma should_retry_last r : should_retry 2 r = false.
Proof. reflexivity. Qed.

Lemma reply_0 w : reply w req 0 = transport w (count_posts (trace w)) req.
Proof. unfold reply. now rewrite Nat.add_0_r. Qed.

Lemma reply_1 w s :
  reply w req 1 =
  transport (log (EvSleep s) (log (EvPost req) w))
    (count_posts (trace (log (EvSleep s) (log (EvPost req) w)))) req.
Proof.
  unfold reply. simpl. rewrite count_posts_sleep, count_posts_post.
  now rewrite Nat.add_1_r.
Qed.

Lemma reply_2 w s1 s2 :
  reply w req 2 =
  transport
    (log (EvSleep s2) (log (EvPost req) (log (EvSleep s1) (log (EvPost req) w))))
    (count_posts
       (trace (log (EvSleep s2)
                 (log (EvPost req) (log (EvSleep s1) (log (EvPost req) w))))))
    req.
Proof.
  unfold reply. simpl.
  rewrite count_posts_sleep, count_posts_post, count_posts_sleep, count_posts_post.
  f_equal. lia.
Qed.

Lemma loop_follows_policy :
  follows_retry_policy (loop (range max_retries)) req error_prefix.
Proof.
  intros w. change (range max_retries) with [0; 1; 2].
  destruct (loop_step 0 [1; 2] w) as [(o & E & L) | (r0 & T0 & H0 & R0 & E0)].
  { (* the first attempt is the last *)
    exists (one_attempt req). rewrite E. count_attempts.
    split; [reflexivity|]. split; [now left|].
    split; [intros k Hk; lia|].
    split.
    - intros k r Hk Hk2 Hr He Hs.
      assert (k = 0%nat) as -> by lia. rewrite reply_0 in Hr.
      unfold last_attempt in L. rewrite Hr, He in L.
      rewrite should_retry_early in L by lia. destruct L; congruence.
    - intros r Hr He. simpl in Hr. rewrite reply_0 in Hr.
      unfold last_attempt in L. rewrite Hr, He in L. now destruct L. }
  rewrite should_retry_early in R0 by lia.
  set (w1 := log (EvSleep (2 ^ 0)) (log (EvPost req) w)) in *.
  destruct (loop_step 1 [2] w1) as [(o & E & L) | (r1 & T1 & H1 & R1 & E1)].
  { (* the second attempt is the last *)
    exists (two_attempts req). rewrite E0, E. count_attempts.
    split; [simpl; now rewrite <- !app_assoc|]. split; [right; now left|].
    split.
    - intros k Hk. assert (k = 0%nat) as -> by lia.
      exists r0. now rewrite reply_0.
    - split.
      + intros k r Hk Hk2 Hr He Hs.
        destruct k as [|[|k]]; [lia | | lia].
        rewrite (reply_1 w (2 ^ 0)) in Hr. fold w1 in Hr.
        unfold last_attempt in L. rewrite Hr, He in L.
        rewrite should_retry_early in L by lia. destruct L; congruence.
      + intros r Hr He. simpl in Hr.
        rewrite (reply_1 w (2 ^ 0)) in Hr. fold w1 in Hr.
        unfold last_attempt in L. rewrite Hr, He in L. now destruct L. }
  rewrite should_retry_early in R1 by lia.
  set (w2 := log (EvSleep (2 ^ 1)) (log (EvPost req) w1)) in *.
  destruct (loop_step 2 [] w2) as [(o & E & L) | (r2 & T2 & H2 & R2 & E2)].
  2: { rewrite should_retry_last in R2. discriminate. }
  (* three attempts *)
  exists (three_attempts req). rewrite E0, E1, E. count_attempts.
  split; [simpl; now rewrite <- !app_assoc|]. split; [right; now right|].
  split.
  - intros k Hk. destruct k as [|[|k]]; [| |lia].
    + exists r0. now rewrite reply_0.
    + exists r1. rewrite (reply_1 w (2 ^ 0)). now fold w1.
  - split.
    + intros k r Hk Hk2 Hr He Hs. lia.
    + intros r Hr He. simpl in Hr.
      rewrite (reply_2 w (2 ^ 0) (2 ^ 1)) in Hr. fold w1 w2 in Hr.
      unfold last_attempt in L. rewrite Hr, He in L. now destruct L.
Qed.

(** Two retryable replies and then a response that is no HTTP error: the
    result is what the third attempt makes of it, after three POSTs and the
    two delays. *)
Lemma loop_third_time_lucky w r0 r1 r2 :
  reply w req 0 = PostReturns r0 -> status_code r0 = 429 ->
  reply w req 1 = PostReturns r1 -> status_code r1 = 429 ->
  reply w req 2 = PostReturns r2 ->
  http_error_status (status_code r2) = false ->
  exists w',
    loop (range max_retries) w =
      (match finish r2 with
       | Ok v => Ok v
       | Raise e => Raise (PyException [Lit unexpected_prefix; Err e])
       | Loops => Loops
       end, w') /\
    trace w' = trace w ++ three_attempts req.
Proof.
  intros T0 S0 T1 S1 T2 H2. change (range max_retries) with [0; 1; 2].
  rewrite reply_0 in T0. rewrite (reply_1 w (2 ^ 0)) in T1.
  rewrite (reply_2 w (2 ^ 0) (2 ^ 1)) in T2.
  assert (R0 : should_retry 0 r0 = true)
    by (unfold should_retry; rewrite S0; reflexivity).
  assert (R1 : should_retry 1 r1 = true)
    by (unfold should_retry; rewrite S1; reflexivity).
  assert (A0 := attempt_spec 0 w). unfold attempt_cases in A0.
  rewrite T0, R0, S0 in A0. change (http_error_status 429) with true in A0.
  cbv iota in A0. rewrite loop_cons, A0.
  set (w1 := log (EvSleep (2 ^ 0)) (log (EvPost req) w)) in *.
  assert (A1 := attempt_spec 1 w1). unfold attempt_cases in A1.
  rewrite T1, R1, S1 in A1. change (http_error_status 429) with true in A1.
  cbv iota in A1. rewrite loop_cons, A1.
  set (w2 := log (EvSleep (2 ^ 1)) (log (EvPost req) w1)) in *.
  assert (A2 := attempt_spec 2 w2). unfold attempt_cases in A2.
  rewrite T2, H2 in A2.
  rewrite loop_cons, A2.
  exists (log (EvPost req) w2). split.
  - now destruct (finish r2).
  - simpl. now rewrite <- !app_assoc.
Qed.

(** The loop itself never runs for ever: it gives a value or raises as
    soon as what it makes of a response does. *)
Lemma loop_settles w :
  (forall r, settles (finish r)) ->
  settles (loop (range max_retries) w).1.
Proof.
  intros Hf. change (range max_retries) with [0; 1; 2].
  assert (Hlast : forall attempt w0 o,
             last_attempt req error_prefix unexpected_prefix finish
               attempt w0 o -> settles o).
  { intros attempt w0 o L. unfold last_attempt in L.
    destruct (transport w0 _ req) as [detail | r]; [now subst|].
    destruct (http_error_status (status_code r)).
    - destruct L as [_ ->]. discriminate.
    - subst o. pose proof (Hf r) as S. now destruct (finish r). }
  destruct (loop_step 0 [1; 2] w) as [(o & E & L) | (r0 & _ & _ & _ & E0)].
  { rewrite E. simpl. eauto. }
  rewrite E0.
  destruct (loop_step 1 [2] (log (EvSleep (2 ^ 0)) (log (EvPost req) w)))
    as [(o & E & L) | (r1 & _ & _ & _ & E1)].
  { rewrite E. simpl. eauto. }
  rewrite E1.
  destruct (loop_step 2 []
              (log (EvSleep (2 ^ 1))
                 (log (EvPost req)
                    (log (EvSleep (2 ^ 0)) (log (EvPost req) w)))))
    as [(o & E & L) | (r2 & _ & _ & R2 & _)].
  { rewrite E. simpl. eauto. }
  rewrite should_retry_last in R2. discriminate.
Qed.

(** A first reply that is no HTTP error decides the call. *)
Lemma loop_first_reply w r :
  reply w req 0 = PostReturns r ->
  http_error_status (status_code r) = false ->
  loop (range max_retries) w =
    (match finish r with
     | Ok v => Ok v
     | Raise e => Raise (PyException [Lit unexpected_prefix; Err e])
     | Loops => Loops
     end, log (EvPost req) w).
Proof.
  intros T H. change (range max_retries) with [0; 1; 2].
  rewrite reply_0 in T.
  assert (A := attempt_spec 0 w). unfold attempt_cases in A.
  rewrite T, H in A. rewrite loop_cons, A. now destruct (finish r).
Qed.

(** A call answered by [r] returns what the attempt makes of [r]. *)
Lemma loop_answered w r :
  answered_by w req r ->
  (loop (range max_retries) w).1 = wrap_unexpected unexpected_prefix (finish r).
Proof.
  intros [H [T | [(r0 & T0 & [E0 S0] & T) | (r0 & r1 & T0 & [E0 S0] & T1 & [E1 S1] & T)]]].
  - now rewrite (loop_first_reply w r T H).
  - change (range max_retries) with [0; 1; 2].
    rewrite reply_0 in T0. rewrite (reply_1 w (2 ^ 0)) in T.
    assert (A0 := attempt_spec 0 w). unfold attempt_cases in A0.
    rewrite T0, E0, should_retry_early, S0 in A0 by lia.
    rewrite loop_cons, A0.
    set (w1 := log (EvSleep (2 ^ 0)) (log (EvPost req) w)) in *.
    assert (A1 := attempt_spec 1 w1). unfold attempt_cases in A1.
    rewrite T, H in A1. rewrite loop_cons, A1.
    unfold wrap_unexpected. now destruct (finish r).
  - change (range max_retries) with [0; 1; 2].
    rewrite reply_0 in T0. rewrite (reply_1 w (2 ^ 0)) in T1.
    rewrite (reply_2 w (2 ^ 0) (2 ^ 1)) in T.
    assert (A0 := attempt_spec 0 w). unfold attempt_cases in A0.
    rewrite T0, E0, should_retry_early, S0 in A0 by lia.
    rewrite loop_cons, A0.
    set (w1 := log (EvSleep (2 ^ 0)) (log (EvPost req) w)) in *.
    assert (A1 := attempt_spec 1 w1). unfold attempt_cases in A1.
    rewrite T1, E1, should_retry_early, S1 in A1 by lia.
    rewrite loop_cons, A1.
    set (w2 := log (EvSleep (2 ^ 1)) (log (EvPost req) w1)) in *.
    assert (A2 := attempt_spec 2 w2). unfold attempt_cases in A2.
    rewrite T, H in A2. rewrite loop_cons, A2.
    unfold wrap_unexpected. now destruct (finish r).
Qed.

End RetryLoop.

(** ** Only [raise_for_status] raises [HTTPError] *)

Lemma no_http_ok {A} (a : A) : no_http_error (Ok a).
Proof. intros r H. discriminate. Qed.

Lemma no_http_obind {A B} (m : outcome A) (k : A -> outcome B) :
  no_http_error m -> (forall a, no_http_error (k a)) ->
  no_http_error (obind m k).
Proof.
  intros Hm Hk r. destruct m as [a|e|]; simpl.
  - apply Hk.
  - intros H. injection H as ->. now apply (Hm r).
  - discriminate.
Qed.

Lemma no_http_py_get v k d : no_http_error (py_get v k d).
Proof. destruct v; intros r H; discriminate. Qed.

Lemma no_http_py_getitem_key v k : no_http_error (py_getitem_key v k).
Proof.
  destruct v; intros r H; try discriminate.
  simpl in H. destruct (dict_lookup k entries); discriminate.
Qed.

Lemma no_http_py_getitem_int v i : no_http_error (py_getitem_int v i).
Proof.
  destruct v; intros r H; try discriminate; simpl in H;
    repeat case_match; discriminate.
Qed.

Lemma no_http_py_contains k v : no_http_error (py_contains k v).
Proof. destruct v; intros r H; discriminate. Qed.

Lemma no_http_py_strip v : no_http_error (py_strip v).
Proof. destruct v; intros r H; discriminate. Qed.

Lemma no_http_py_print encodes s : no_http_error (py_print encodes s).
Proof.
  unfold py_print. destruct (printable encodes s); intros r H; discriminate.
Qed.

Lemma no_http_response_json r : no_http_error (response_json r).
Proof. unfold response_json. destruct (json r); intros r' H; discriminate. Qed.

Create HintDb no_http.
Create HintDb settles.

#[local] Hint Resolve no_http_ok no_http_py_get no_http_py_getitem_key
  no_http_py_getitem_int no_http_py_contains no_http_py_strip
  no_http_py_print no_http_response_json : no_http.

Ltac no_http :=
  repeat first
    [ apply no_http_obind; [|intros ?]
    | solve [auto with no_http]
    | match goal with
      | |- no_http_error (if ?b then _ else _) => destruct b
      | |- no_http_error (match ?x with _ => _ end) => destruct x
      | |- no_http_error (Raise _) => intros ? ?; discriminate
      end ].

Lemma no_http_extract_summary result : no_http_error (extract_summary result).
Proof. unfold extract_summary. no_http. Qed.

Lemma no_http_extract_quiz json_loads stdout_encodes result :
  no_http_error (extract_quiz json_loads stdout_encodes result).
Proof. unfold extract_quiz, has_parts, payload_text, normalize_quiz. no_http. Qed.

(** ** The pure parts always give a value or raise *)

Lemma settles_obind {A B} (m : outcome A) (k : A -> outcome B) :
  settles m -> (forall a, settles (k a)) -> settles (obind m k).
Proof.
  intros Hm Hk. destruct m as [a|e|]; simpl;
    [apply Hk | discriminate | now destruct Hm].
Qed.

Lemma settles_py_get v k d : settles (py_get v k d).
Proof. now destruct v. Qed.

Lemma settles_py_getitem_key v k : settles (py_getitem_key v k).
Proof. destruct v; try discriminate. simpl. now destruct (dict_lookup k entries). Qed.

Lemma settles_py_getitem_int v i : settles (py_getitem_int v i).
Proof. destruct v; try discriminate; simpl; repeat case_match; discriminate. Qed.

Lemma settles_py_contains k v : settles (py_contains k v).
Proof. now destruct v. Qed.

Lemma settles_py_strip v : settles (py_strip v).
Proof. now destruct v. Qed.

Lemma settles_py_print encodes s : settles (py_print encodes s).
Proof. unfold py_print. now destruct (printable encodes s). Qed.

Lemma settles_response_json r : settles (response_json r).
Proof. unfold response_json. now destruct (json r). Qed.

Lemma settles_py_join sep items : settles (py_join sep items).
Proof.
  induction items as [|x rest IH]; [discriminate|].
  destruct x; try discriminate. simpl.
  destruct rest as [|y rest']; [discriminate|].
  apply settles_obind; [exact IH | discriminate].
Qed.

#[local] Hint Resolve settles_py_get settles_py_getitem_key
  settles_py_getitem_int settles_py_contains settles_py_strip
  settles_py_print settles_response_json : settles.

Ltac settles :=
  repeat first
    [ apply settles_obind; [|intros ?]
    | solve [auto with settles]
    | match goal with
      | |- settles (if ?b then _ else _) => destruct b
      | |- settles (match ?x with _ => _ end) => destruct x
      | |- settles (Raise _) => discriminate
      | |- settles (Ok _) => discriminate
      end ].

Lemma settles_summary_finish r : settles (summary_finish r).
Proof. unfold summary_finish, extract_summary. settles. Qed.

Lemma settles_quiz_finish json_loads stdout_encodes r :
  settles (quiz_finish json_loads stdout_encodes r).
Proof.
  unfold quiz_finish, extract_quiz, has_parts, payload_text, normalize_quiz.
  settles.
Qed.

Lemma summary_attempt_spec sys q key attempt w :
  attempt_cases (summary_request sys q key)
    (lit "Failed to generate summary due to API error: ")
    (lit "An unexpected error occurred during summary generation: ")
    summary_finish
    (fun attempt =>
       try_except
         (let* v := summary_try (summary_request sys q key) in ret (Some v))
         (summary_except attempt))
    attempt w.
Proof.
  cbv [attempt_cases try_except bind summary_try post lift ret
         summary_finish raise obind raise_for_status http_error_status
         summary_except sleep].
  destruct (transport w _ _) as [detail | r]; [reflexivity|].
  destruct ((400 <=? status_code r) && (status_code r <? 600)).
  - destruct (should_retry attempt r); reflexivity.
  - pose proof (no_http_response_json r) as Hj.
    destruct (response_json r) as [result|e|];
      [|destruct e; try reflexivity; now destruct (Hj response)|reflexivity].
    pose proof (no_http_extract_summary result) as Hx.
    destruct (extract_summary result) as [v|e|]; try reflexivity.
    destruct e; try reflexivity. now destruct (Hx response).
Qed.

Lemma summary_attempts_cons req attempt later w :
  summary_attempts (attempt :: later) req w =
  match try_except (let* v := summary_try req in ret (Some v))
          (summary_except attempt) w with
  | (Ok (Some v), w') => (Ok v, w')
  | (Ok None, w') => summary_attempts later req w'
  | (Raise e, w') => (Raise e, w')
  | (Loops, w') => (Loops, w')
  end.
Proof.
  simpl. unfold bind at 1.
  destruct (try_except _ _ w) as [[[v|]|e|] w']; reflexivity.
Qed.

Lemma quiz_attempt_spec json_loads stdout_encodes q schema sys key attempt w :
  attempt_cases (quiz_request q schema sys key)
    (lit "Failed to generate quiz due to API error: ")
    (lit "An unexpected error occurred during API call: ")
    (quiz_finish json_loads stdout_encodes)
    (fun attempt =>
       try_except
         (let* v := quiz_try json_loads stdout_encodes (quiz_request q schema sys key) in
          ret (Some v))
         (quiz_except attempt))
    attempt w.
Proof.
  cbv [attempt_cases try_except bind quiz_try post lift ret
         quiz_finish raise obind raise_for_status http_error_status
         quiz_except sleep].
  destruct (transport w _ _) as [detail | r]; [reflexivity|].
  destruct ((400 <=? status_code r) && (status_code r <? 600)).
  - destruct (should_retry attempt r); reflexivity.
  - pose proof (no_http_response_json r) as Hj.
    destruct (response_json r) as [result|e|];
      [|destruct e; try reflexivity; now destruct (Hj response)|reflexivity].
    pose proof (no_http_extract_quiz json_loads stdout_encodes result) as Hx.
    destruct (extract_quiz json_loads stdout_encodes result) as [v|e|]; try reflexivity.
    destruct e; try reflexivity. now destruct (Hx response).
Qed.

Lemma quiz_attempts_cons json_loads stdout_encodes req attempt later w :
  quiz_attempts json_loads stdout_encodes (attempt :: later) req w =
  match try_except (let* v := quiz_try json_loads stdout_encodes req in ret (Some v))
          (quiz_except attempt) w with
  | (Ok (Some v), w') => (Ok v, w')
  | (Ok None, w') => quiz_attempts json_loads stdout_encodes later req w'
  | (Raise e, w') => (Raise e, w')
  | (Loops, w') => (Loops, w')
  end.
Proof.
  simpl. unfold bind at 1.
  destruct (try_except _ _ w) as [[[v|]|e|] w']; reflexivity.
Qed.

(** Both invokers follow the retry policy. *)
Lemma summary_call_policy sys q key :
  follows_retry_policy (_call_gemini_api sys q key)
    (summary_request sys q key)
    (lit "Failed to generate summary due to API error: ").
Proof.
  apply (loop_follows_policy (summary_request sys q key) _ _ summary_finish
           _ (fun attempts => summary_attempts attempts _)
           (summary_attempt_spec sys q key)).
  intros attempt later w. apply summary_attempts_cons.
Qed.

Lemma quiz_call_policy json_loads stdout_encodes q schema sys key :
  follows_retry_policy
    (_call_gemini_api_structured json_loads stdout_encodes q schema sys key)
    (quiz_request q schema sys key)
    (lit "Failed to generate quiz due to API error: ").
Proof.
  apply (loop_follows_policy (quiz_request q schema sys key) _ _
           (quiz_finish json_loads stdout_encodes)
           _ (fun attempts => quiz_attempts json_loads stdout_encodes attempts _)
           (quiz_attempt_spec json_loads stdout_encodes q schema sys key)).
  intros attempt later w. apply quiz_attempts_cons.
Qed.

(** A structured call answered by [r] returns what the attempt makes of
    [r]. *)
Lemma quiz_call_answered json_loads stdout_encodes q schema sys key w r :
  answered_by w (quiz_request q schema sys key) r ->
  (_call_gemini_api_structured json_loads stdout_encodes q schema sys key w).1 =
  wrap_unexpected (lit "An unexpected error occurred during API call: ")
    (quiz_finish json_loads stdout_encodes r).
Proof.
  apply (loop_answered (quiz_request q schema sys key) _ _
           (quiz_finish json_loads stdout_encodes)
           _ (fun attempts => quiz_attempts json_loads stdout_encodes attempts _)
           (quiz_attempt_spec json_loads stdout_encodes q schema sys key)).
  intros attempt later w0. apply quiz_attempts_cons.
Qed.

Lemma summary_call_answered sys q key w r :
  answered_by w (summary_request sys q key) r ->
  (_call_gemini_api sys q key w).1 =
  wrap_unexpected
    (lit "An unexpected error occurred during summary generation: ")
    (summary_finish r).
Proof.
  apply (loop_answered (summary_request sys q key) _ _ summary_finish
           _ (fun attempts => summary_attempts attempts _)
           (summary_attempt_spec sys q key)).
  intros attempt later w0. apply summary_attempts_cons.
Qed.

(** Both invokers always return or raise. *)
Lemma summary_call_settles sys q key w :
  settles (_call_gemini_api sys q key w).1.
Proof.
  apply (loop_settles (summary_request sys q key) _ _ summary_finish
           _ (fun attempts => summary_attempts attempts _)
           (summary_attempt_spec sys q key)).
  - intros attempt later w0. apply summary_attempts_cons.
  - apply settles_summary_finish.
Qed.

Lemma quiz_call_settles json_loads stdout_encodes q schema sys key w :
  settles (_call_gemini_api_structured json_loads stdout_encodes q schema sys key w).1.
Proof.
  apply (loop_settles (quiz_request q schema sys key) _ _
           (quiz_finish json_loads stdout_encodes)
           _ (fun attempts => quiz_attempts json_loads stdout_encodes attempts _)
           (quiz_attempt_spec json_loads stdout_encodes q schema sys key)).
  - intros attempt later w0. apply quiz_attempts_cons.
  - apply settles_quiz_finish.
Qed.

(** C1. Both invokers, [_call_gemini_api] and
    [_call_gemini_api_structured], follow the retry policy: one to three
    POSTs, never a fourth; an attempt is followed by another one only after
    a response with status 429 or >= 500, and the first two attempts are
    retried on 429 and on 5xx; the sleep after attempt [k] is [2^k] seconds
    (1s before the second attempt, 2s before the third); an HTTP error
    status on the last attempt made (any other error status, or the third
    retryable failure) raises an exception that carries the response body.
    When the endpoint answers 429 twice and then succeeds, the call returns
    the result after exactly three POSTs and two delays. *)
Theorem api_invoker_retry_policy :
  (forall sys q key,
     follows_retry_policy (_call_gemini_api sys q key)
       (summary_request sys q key)
       (lit "Failed to generate summary due to API error: ")) /\
  (forall json_loads stdout_encodes q schema sys key,
     follows_retry_policy (_call_gemini_api_structured json_loads stdout_encodes q schema sys key)
       (quiz_request q schema sys key)
       (lit "Failed to generate quiz due to API error: ")) /\
  (forall sys q key w r0 r1 r2 result v,
     let req := summary_request sys q key in
     reply w req 0 = PostReturns r0 -> status_code r0 = 429 ->
     reply w req 1 = PostReturns r1 -> status_code r1 = 429 ->
     reply w req 2 = PostReturns r2 ->
     http_error_status (status_code r2) = false ->
     json r2 = Some result -> extract_summary result = Ok v ->
     exists w',
       _call_gemini_api sys q key w = (Ok v, w') /\
       trace w' = trace w ++ three_attempts req /\
       count_posts (three_attempts req) = 3%nat /\
       count_sleeps (three_attempts req) = 2%nat) /\
  (forall json_loads stdout_encodes q schema sys key w r0 r1 r2 result v,
     let req := quiz_request q schema sys key in
     reply w req 0 = PostReturns r0 -> status_code r0 = 429 ->
     reply w req 1 = PostReturns r1 -> status_code r1 = 429 ->
     reply w req 2 = PostReturns r2 ->
     http_error_status (status_code r2) = false ->
     json r2 = Some result -> extract_quiz json_loads stdout_encodes result = Ok v ->
     exists w',
       _call_gemini_api_structured json_loads stdout_encodes q schema sys key w = (Ok v, w') /\
       trace w' = trace w ++ three_attempts req /\
       count_posts (three_attempts req) = 3%nat /\
       count_sleeps (three_attempts req) = 2%nat).
Proof.
  split; [|split; [|split]].
  - exact summary_call_policy.
  - exact quiz_call_policy.
  - intros sys q key w r0 r1 r2 result v req T0 S0 T1 S1 T2 H2 J X.
    destruct (loop_third_time_lucky req _ _ summary_finish
                _ (fun attempts => summary_attempts attempts req)
                (summary_attempt_spec sys q key)
                (summary_attempts_cons req)
                w r0 r1 r2 T0 S0 T1 S1 T2 H2) as (w' & E & T).
    exists w'. unfold summary_finish, response_json in E. rewrite J in E.
    simpl in E. rewrite X in E. repeat split; assumption.
  - intros json_loads stdout_encodes q schema sys key w r0 r1 r2 result v req
      T0 S0 T1 S1 T2 H2 J X.
    destruct (loop_third_time_lucky req _ _ (quiz_finish json_loads stdout_encodes)
                _ (fun attempts => quiz_attempts json_loads stdout_encodes attempts req)
                (quiz_attempt_spec json_loads stdout_encodes q schema sys key)
                (quiz_attempts_cons json_loads stdout_encodes req)
                w r0 r1 r2 T0 S0 T1 S1 T2 H2) as (w' & E & T).
    exists w'. unfold quiz_finish, response_json in E. rewrite J in E.
    simpl in E. rewrite X in E. repeat split; assumption.
Qed.

Lemma api_invoker_retry_policy_witness :
  exists w',
    _call_gemini_api (lit "sys") (lit "query") (lit "KEY")
      (mock_world (twice_429_then (PStr (lit "a summary"))))
    = (Ok (PStr (lit "a summary")), w') /\
    trace w' =
      three_attempts (summary_request (lit "sys") (lit "query") (lit "KEY")).
Proof.
  destruct (proj1 (proj2 (proj2 api_invoker_retry_policy))
              (lit "sys") (lit "query") (lit "KEY")
              (mock_world (twice_429_then (PStr (lit "a summary"))))
              rate_limited rate_limited (answer (PStr (lit "a summary")))
              (envelope (PStr (lit "a summary"))) (PStr (lit "a summary"))
              eq_refl eq_refl eq_refl eq_refl eq_refl eq_refl eq_refl eq_refl)
    as (w' & E & T & _).
  exists w'. split; [exact E | exact T].
Defined.

(** * The summarizer *)

Lemma try_except_reraise {A} (m : M A) w :
  try_except m (fun e => raise e) w = m w.
Proof. unfold try_except, raise. now destruct (m w) as [[a|e|] w']. Qed.

(** Saving adds no POST to the trace. *)
Lemma save_summary_trace path v w :
  exists tail, trace (save_summary path v w).2 = trace w ++ tail /\
               count_posts tail = 0%nat.
Proof.
  unfold save_summary, try_except, write_file, raise.
  destruct (fs_fault w path) as [[d|d]|].
  - exists []. simpl. now rewrite app_nil_r.
  - exists []. simpl. now rewrite app_nil_r.
  - destruct v; try (exists []; simpl; now rewrite app_nil_r).
    destruct (utf8_encodable s).
    + exists [EvWrite path s]. simpl. split; reflexivity.
    + exists []. simpl. now rewrite app_nil_r.
Qed.

(** [generate_summary] always returns or raises: with the default
    parameters the chunking loop finishes, and so does every call of the
    invoker. *)
Lemma for_each_settles {A B} (f : A -> M B) (xs : list A) :
  (forall x w, settles (f x w).1) -> forall w, settles (for_each f xs w).1.
Proof.
  intros Hf. induction xs as [|x rest IH]; intros w; [discriminate|].
  simpl. unfold bind at 1. pose proof (Hf x w) as Hx.
  destruct (f x w) as [[y|e|] w1]; simpl in *; [|discriminate|now destruct Hx].
  unfold bind at 1. pose proof (IH w1) as Hr.
  destruct (for_each f rest w1) as [[ys|e|] w2]; simpl in *;
    [discriminate | discriminate | now destruct Hr].
Qed.

Lemma save_summary_settles path v w : settles (save_summary path v w).1.
Proof.
  unfold save_summary, try_except, write_file, raise.
  destruct (fs_fault w path) as [[d|d]|]; try discriminate.
  destruct v; try discriminate. now destruct (utf8_encodable s).
Qed.

Lemma generate_summary_settles text path key w :
  settles (generate_summary text path key w).1.
Proof.
  unfold generate_summary. destruct (str_truthy key); [|discriminate].
  change (negb true) with false. cbv iota. rewrite try_except_reraise.
  unfold bind at 1.
  assert (Hin : settles (final_input_text text key w).1).
  { unfold final_input_text. destruct (len text >? CHUNK_SIZE); [|discriminate].
    destruct (chunk_text_default_total text) as [chunks ->].
    unfold bind. pose proof (for_each_settles
      (fun chunk => _call_gemini_api segment_system_prompt
                      (segment_user_query chunk) key) chunks
      (fun x w0 => summary_call_settles _ _ _ w0) w) as Hs.
    unfold summarize_segments.
    destruct (for_each _ chunks w) as [[ss|e|] w1]; simpl in *;
      [|discriminate|now destruct Hs].
    apply settles_py_join. }
  destruct (final_input_text text key w) as [[input|e|] w1]; simpl in *;
    [|discriminate|now destruct Hin].
  unfold bind at 1.
  pose proof (summary_call_settles final_system_prompt input key w1) as Hc.
  destruct (_call_gemini_api final_system_prompt input key w1)
    as [[v|e|] w2]; simpl in *; [|discriminate|now destruct Hc].
  unfold bind, ret. pose proof (save_summary_settles path v w2) as Hs.
  destruct (save_summary path v w2) as [[u|e|] w3]; simpl in *;
    [discriminate | discriminate | now destruct Hs].
Qed.

(** C6. For a text of at most [CHUNK_SIZE] characters and a credential
    that is not empty, [generate_summary] does no chunking: the final-stage
    input is the text itself, the whole run is one call of the invoker with
    the text as its query followed by the save, and every POST of the run
    (one to three, by the invoker's retries) carries that one request. *)
Theorem small_text_single_call (text path key : str) :
  len text <= CHUNK_SIZE -> str_truthy key = true ->
  final_input_text text key = ret text /\
  (forall w,
     generate_summary text path key w =
     (let* summary_result := _call_gemini_api final_system_prompt text key in
      let* _ := save_summary path summary_result in
      ret summary_result) w) /\
  (forall w, exists evs tail,
     let req := summary_request final_system_prompt text key in
     data req = summary_payload final_system_prompt text /\
     trace (generate_summary text path key w).2 = trace w ++ evs ++ tail /\
     (evs = one_attempt req \/ evs = two_attempts req
      \/ evs = three_attempts req) /\
     count_posts tail = 0%nat).
Proof.
  intros Hlen Hkey.
  assert (Hin : final_input_text text key = ret text).
  { unfold final_input_text.
    replace (len text >? CHUNK_SIZE) with false; [reflexivity|].
    symmetry. rewrite Z.gtb_ltb. apply Z.ltb_ge. lia. }
  assert (Hrun : forall w,
     generate_summary text path key w =
     (let* summary_result := _call_gemini_api final_system_prompt text key in
      let* _ := save_summary path summary_result in
      ret summary_result) w).
  { intros w. unfold generate_summary. rewrite Hkey. change (negb true) with false. cbv iota.
    rewrite try_except_reraise, Hin. reflexivity. }
  split; [exact Hin|]. split; [exact Hrun|].
  intros w. rewrite Hrun.
  destruct (summary_call_policy final_system_prompt text key w)
    as (evs & Ht & Hshape & _).
  unfold bind at 1.
  destruct (_call_gemini_api final_system_prompt text key w) as [[v|e|] w1];
    simpl in Ht.
  - destruct (save_summary_trace path v w1) as (tail & Hs & Hc).
    exists evs, tail. split; [reflexivity|]. split; [|split; assumption].
    unfold bind, ret. destruct (save_summary path v w1) as [[u|e|] w2];
      simpl in *; now rewrite Hs, Ht, <- app_assoc.
  - exists evs, []. simpl. rewrite app_nil_r. auto.
  - exists evs, []. simpl. rewrite app_nil_r. auto.
Qed.

Lemma small_text_single_call_witness :
  (len (lit "short text") <= CHUNK_SIZE /\ str_truthy (lit "KEY") = true) /\
  final_input_text (lit "short text") (lit "KEY") = ret (lit "short text").
Proof.
  split; [split; vm_compute; [congruence | reflexivity]|].
  apply (small_text_single_call (lit "short text") (lit "out") (lit "KEY")).
  - vm_compute. congruence.
  - reflexivity.
Defined.

(** C7 (amended). With an empty credential both entry points raise before
    anything is sent: the world, and with it the trace, is unchanged.
    [generate_summary] raises the credential error whatever the text;
    [create_quiz_from_text] raises the credential error when the source
    content is not blank, and the error for empty source content when it
    is. *)
Theorem empty_credential_raises :
  (forall text path w,
     generate_summary text path [] w =
     (Raise (ValueError (lit "Gemini API Key is required for summarization.")),
      w)) /\
  (forall json_loads stdout_encodes dumps_fault source_content num_questions
          difficulty w,
     create_quiz_from_text json_loads stdout_encodes dumps_fault source_content num_questions
       difficulty [] w =
     (Raise (ValueError
               (if str_truthy (strip source_content)
                then lit "Gemini API Key is required for quiz generation."
                else lit "Source content for quiz generation is empty.")),
      w)).
Proof.
  split.
  - reflexivity.
  - intros json_loads stdout_encodes dumps_fault source_content num_questions
      difficulty w.
    unfold create_quiz_from_text.
    now destruct (str_truthy (strip source_content)).
Qed.

(** C7, as stated, fails: for a blank source text and an empty credential
    [create_quiz_from_text] raises the error for empty source content, which
    is not the credential error. *)
Lemma blank_source_error_comes_first :
  create_quiz_from_text rejects_all utf8_stdout dumps_fine (lit " ") 3
    (lit "easy") []
    (mock_world (always rate_limited)) =
  (Raise (ValueError (lit "Source content for quiz generation is empty.")),
   mock_world (always rate_limited)) /\
  ~ credential_error
      (ValueError (lit "Source content for quiz generation is empty.")).
Proof.
  split; [reflexivity|].
  intros [H | H]; vm_compute in H; discriminate.
Qed.

(** C9. When stage 1 has produced the final input and the final-stage call
    has returned [v]: if the write goes through, [generate_summary] returns
    [v] unchanged, [v] is a string, and the output path holds exactly that
    string, whatever it held before; if the write fails, [generate_summary]
    raises the [IOError] that wraps the failure, although the summary was
    generated.  The write goes through whenever the file system has no fault
    at the path and [v] is a string that UTF-8 can encode. *)
Theorem summary_is_saved (text path key : str) (w : World)
    (input : str) (w1 : World) (v : pyval) (w2 : World) :
  str_truthy key = true ->
  final_input_text text key w = (Ok input, w1) ->
  _call_gemini_api final_system_prompt input key w1 = (Ok v, w2) ->
  match write_file path v w2 with
  | (Ok _, w3) =>
      generate_summary text path key w = (Ok v, w3) /\
      exists s, v = PStr s /\ files w3 !! path = Some s
  | (Raise e, w3) =>
      generate_summary text path key w = (Raise (save_error path e), w3)
  | (Loops, _) => False
  end /\
  (forall s, v = PStr s -> fs_fault w2 path = None ->
             utf8_encodable s = true ->
             exists w3, write_file path v w2 = (Ok tt, w3)).
Proof.
  intros Hkey Hin Hcall. split.
  - assert (Hrun : generate_summary text path key w =
                   (let* _ := save_summary path v in ret v) w2).
    { unfold generate_summary. rewrite Hkey. change (negb true) with false. cbv iota.
      rewrite try_except_reraise. unfold bind at 1. rewrite Hin.
      unfold bind at 1. rewrite Hcall. reflexivity. }
    rewrite Hrun. unfold bind, ret, save_summary, try_except, raise, save_error.
    unfold write_file.
    destruct (fs_fault w2 path) as [[d|d]|]; try reflexivity.
    destruct v; try reflexivity.
    destruct (utf8_encodable s); [|reflexivity].
    split; [reflexivity|]. exists s. split; [reflexivity|].
    simpl. apply lookup_insert_eq.
  - intros s -> Hf Hu. unfold write_file. rewrite Hf, Hu. eauto.
Qed.

Lemma summary_is_saved_witness :
  generate_summary (lit "short text") (lit "output.txt") (lit "KEY")
    (mock_world (always (answer (PStr (lit "a summary"))))) =
  (Ok (PStr (lit "a summary")),
   log (EvWrite (lit "output.txt") (lit "a summary"))
     (set_file (lit "output.txt") (lit "a summary")
        (log (EvPost (summary_request final_system_prompt
                        (lit "short text") (lit "KEY")))
             (mock_world (always (answer (PStr (lit "a summary")))))))) /\
  files (set_file (lit "output.txt") (lit "a summary")
           (mock_world (always (answer (PStr (lit "a summary"))))))
    !! lit "output.txt" = Some (lit "a summary").
Proof.
  pose proof (summary_is_saved (lit "short text") (lit "output.txt")
                (lit "KEY")
                (mock_world (always (answer (PStr (lit "a summary")))))
                (lit "short text")
                (mock_world (always (answer (PStr (lit "a summary")))))
                (PStr (lit "a summary"))
                (log (EvPost (summary_request final_system_prompt
                                (lit "short text") (lit "KEY")))
                   (mock_world (always (answer (PStr (lit "a summary"))))))
                eq_refl eq_refl eq_refl) as [H _].
  split; [exact (proj1 H)|]. apply lookup_insert_eq.
Defined.

(** * The quiz generator *)

Lemma dict_lookup_set k v d : dict_lookup k (dict_set k v d) = Some v.
Proof.
  induction d as [|[k' v'] d IH]; simpl.
  - now rewrite bool_decide_eq_true_2.
  - destruct (bool_decide (k' = k)) eqn:E; simpl; rewrite E; [reflexivity | exact IH].
Qed.

(** The renumbering loop keeps the length and the order: the item at
    position [k] is the old one with its number set to [i + k + 1]. *)
Lemma renumber_from_spec items : forall i items',
  renumber_from i items = Ok items' ->
  length items' = length items /\
  forall (k : nat) q, items !! k = Some q ->
    exists d, q = PDict d /\
      items' !! k =
        Some (PDict (dict_set (lit "questionNumber")
                       (PInt (i + Z.of_nat k + 1)) d)).
Proof.
  induction items as [|q0 rest IH]; intros i items' H; simpl in H.
  - injection H as <-. split; [reflexivity|]. intros k q Hk.
    now rewrite lookup_nil in Hk.
  - destruct q0; try discriminate. simpl in H.
    destruct (renumber_from (i + 1) rest) as [rest'| |] eqn:R; try discriminate.
    simpl in H. injection H as <-.
    destruct (IH _ _ R) as [Hl Hk]. split; [simpl; now rewrite Hl|].
    intros [|k] q Hq; simpl in Hq.
    + injection Hq as <-. exists entries. split; [reflexivity|].
      replace (i + Z.of_nat 0 + 1) with (i + 1) by lia. reflexivity.
    + destruct (Hk k q Hq) as (d & -> & E). exists d. split; [reflexivity|].
      replace (i + Z.of_nat (S k) + 1) with (i + 1 + Z.of_nat k + 1) by lia.
      exact E.
Qed.

(** ** What the [print]s need *)

Lemma printable_app encodes s1 s2 :
  printable encodes (s1 ++ s2) = printable encodes s1 && printable encodes s2.
Proof. apply forallb_app. Qed.

Lemma printable_digits encodes (d : Decimal.uint) :
  printable encodes (lit (NilEmpty.string_of_uint d)) = true.
Proof. induction d; simpl; [reflexivity | exact IHd ..]. Qed.

(** The decimal digits of an integer and its sign are ASCII. *)
Lemma printable_str_of_int encodes (n : Z) :
  printable encodes (str_of_int n) = true.
Proof.
  unfold str_of_int, NilZero.string_of_int, NilZero.string_of_uint.
  destruct (Z.to_int n) as [d|d]; destruct d; try reflexivity;
    match goal with
    | |- printable _ (lit (String _ (NilEmpty.string_of_uint ?u))) = true =>
        change (printable encodes (lit (NilEmpty.string_of_uint u)) = true)
    | _ => idtac
    end; apply printable_digits.
Qed.

(** Each [print] of the quiz generator goes through exactly when the data
    it shows can be encoded: the difficulty, the first 500 characters of
    the payload, and the payload with the warning sign. *)
Lemma printable_generating_text encodes n difficulty :
  printable encodes (generating_text n difficulty)
  = printable encodes difficulty.
Proof.
  unfold generating_text. rewrite !printable_app, printable_str_of_int.
  change (printable encodes (lit "Generating ")) with true.
  change (printable encodes (lit " ")) with true.
  change (printable encodes (lit " quiz...")) with true.
  change (printable encodes [newline]) with true.
  now rewrite !andb_true_r.
Qed.

Lemma printable_raw_output_text encodes json_string :
  printable encodes (raw_output_text json_string)
  = printable encodes (slice json_string 0 500).
Proof.
  unfold raw_output_text. rewrite !printable_app.
  change (printable encodes [newline]) with true.
  change (printable encodes (lit "=== RAW GEMINI QUIZ OUTPUT ===")) with true.
  change (printable encodes (lit " ")) with true.
  change (printable encodes (lit " ...")) with true.
  change (printable encodes [newline; newline]) with true.
  now rewrite !andb_true_r.
Qed.

Lemma printable_malformed_text encodes json_string :
  printable encodes (malformed_text json_string)
  = encodes 9888%N && encodes 65039%N && printable encodes json_string.
Proof.
  unfold malformed_text. rewrite !printable_app.
  change (printable encodes [newline]) with true.
  change (printable encodes (lit " Gemini returned malformed JSON: "))
    with true.
  change (printable encodes [9888%N; 65039%N])
    with (encodes 9888%N && (encodes 65039%N && true)).
  now destruct (encodes 9888%N), (encodes 65039%N),
    (printable encodes json_string).
Qed.

(** ** [create_quiz_from_text] past its guards *)

Lemma create_quiz_runs json_loads stdout_encodes dumps_fault source_content
    num_questions difficulty api_key w :
  str_truthy (strip source_content) = true -> str_truthy api_key = true ->
  create_quiz_from_text json_loads stdout_encodes dumps_fault source_content
    num_questions difficulty api_key w =
  (let* _ := lift (py_print stdout_encodes
                     (generating_text num_questions difficulty)) in
   let* quiz_data :=
     _call_gemini_api_structured json_loads stdout_encodes
       (quiz_user_query source_content) quiz_schema
       (quiz_system_prompt num_questions difficulty) api_key in
   let* quiz_data := lift (renumber_questions quiz_data) in
   let* _ := lift (debug_dump dumps_fault quiz_data) in
   ret quiz_data) w.
Proof.
  intros Hs Hk. unfold create_quiz_from_text. now rewrite Hs, Hk.
Qed.

(** The same when the first [print] goes through, by what the call and the
    renumbering give. *)
Lemma create_quiz_printed json_loads stdout_encodes dumps_fault source_content
    num_questions difficulty api_key w :
  str_truthy (strip source_content) = true -> str_truthy api_key = true ->
  printable stdout_encodes difficulty = true ->
  create_quiz_from_text json_loads stdout_encodes dumps_fault source_content
    num_questions difficulty api_key w =
  match _call_gemini_api_structured json_loads stdout_encodes
          (quiz_user_query source_content) quiz_schema
          (quiz_system_prompt num_questions difficulty) api_key w with
  | (Ok upstream, w') =>
      (let+ quiz := renumber_questions upstream in
       let+ _ := debug_dump dumps_fault quiz in
       Ok quiz, w')
  | (Raise e, w') => (Raise e, w')
  | (Loops, w') => (Loops, w')
  end.
Proof.
  intros Hs Hk Hd. rewrite create_quiz_runs by assumption.
  unfold bind at 1. unfold lift at 1, py_print.
  rewrite printable_generating_text, Hd. unfold bind at 1.
  destruct (_call_gemini_api_structured _ _ _ _ _ _ w) as [[upstream|e|] w'];
    [|reflexivity|reflexivity].
  unfold bind, lift, ret.
  destruct (renumber_questions upstream) as [quiz|e|]; [|reflexivity ..].
  simpl. now destruct (debug_dump dumps_fault quiz) as [[]|e|].
Qed.

Lemma create_quiz_ok json_loads stdout_encodes dumps_fault source_content
    num_questions difficulty api_key w quiz w' :
  create_quiz_from_text json_loads stdout_encodes dumps_fault source_content
    num_questions difficulty api_key w = (Ok quiz, w') ->
  printable stdout_encodes difficulty = true /\
  dumps_fault quiz = None /\
  exists upstream,
    _call_gemini_api_structured json_loads stdout_encodes
      (quiz_user_query source_content) quiz_schema
      (quiz_system_prompt num_questions difficulty) api_key w
    = (Ok upstream, w') /\
    renumber_questions upstream = Ok quiz.
Proof.
  intros H.
  destruct (str_truthy (strip source_content)) eqn:Hs.
  2: { unfold create_quiz_from_text in H. rewrite Hs in H. discriminate. }
  destruct (str_truthy api_key) eqn:Hk.
  2: { unfold create_quiz_from_text in H. rewrite Hs, Hk in H. discriminate. }
  destruct (printable stdout_encodes difficulty) eqn:Hd.
  2: { rewrite create_quiz_runs in H by assumption.
       unfold bind at 1 in H. unfold lift at 1, py_print in H.
       rewrite printable_generating_text, Hd in H. discriminate. }
  rewrite create_quiz_printed in H by assumption.
  destruct (_call_gemini_api_structured _ _ _ _ _ _ w) as [[upstream|e|] w1];
    try discriminate.
  destruct (renumber_questions upstream) as [quiz'|e|] eqn:R;
    try discriminate.
  simpl in H. unfold debug_dump in *.
  destruct (dumps_fault quiz') eqn:D; try discriminate.
  simpl in H. injection H as <- <-. eauto.
Qed.

(** C4. Whenever [create_quiz_from_text] returns a quiz whose ['questions']
    is a list of [k] questions, that list is the one the upstream call
    returned, of the same length and in the same order, each question being
    the upstream dictionary with ['questionNumber'] set to its position plus
    one, so [questions[i].questionNumber == i+1] for every [i < k] whatever
    numbers the upstream call produced. *)
Theorem questions_renumbered_in_order json_loads stdout_encodes dumps_fault
    source_content num_questions
    difficulty api_key (w : World) (quiz : pyval) (w' : World)
    (questions : list pyval) :
  create_quiz_from_text json_loads stdout_encodes dumps_fault source_content
    num_questions difficulty api_key w = (Ok quiz, w') ->
  questions_of quiz = Some (PList questions) ->
  exists upstream upstream_questions,
    _call_gemini_api_structured json_loads stdout_encodes
      (quiz_user_query source_content)
      quiz_schema (quiz_system_prompt num_questions difficulty) api_key w
    = (Ok upstream, w') /\
    questions_of upstream = Some (PList upstream_questions) /\
    length questions = length upstream_questions /\
    forall (i : nat) q, questions !! i = Some q ->
      exists d d0,
        q = PDict d /\
        dict_lookup (lit "questionNumber") d = Some (PInt (Z.of_nat i + 1)) /\
        upstream_questions !! i = Some (PDict d0) /\
        d = dict_set (lit "questionNumber") (PInt (Z.of_nat i + 1)) d0.
Proof.
  intros Hrun Hq.
  destruct (create_quiz_ok _ _ _ _ _ _ _ _ _ _ Hrun)
    as (_ & _ & upstream & Hcall & Hren).
  exists upstream.
  unfold renumber_questions in Hren.
  destruct upstream as [| | | | |?|d]; try discriminate. simpl in Hren.
  destruct (dict_lookup (lit "questions") d) as [qv|] eqn:L.
  2: { simpl in Hren. injection Hren as <-. simpl in Hq. congruence. }
  destruct qv as [| | | |s|items|entries]; try discriminate; simpl in Hren.
  - (* a string: only the empty one gets through, and the quiz is unchanged *)
    destruct (renumber_from 0 _); try discriminate.
    simpl in Hren. injection Hren as <-. simpl in Hq. congruence.
  - destruct (renumber_from 0 items) as [items'| |] eqn:R; try discriminate.
    simpl in Hren. injection Hren as <-. simpl in Hq. rewrite dict_lookup_set in Hq.
    injection Hq as <-.
    destruct (renumber_from_spec _ _ _ R) as [Hl Hk].
    exists items. split; [exact Hcall|]. split; [exact L|].
    split; [exact Hl|].
    intros i q Hi.
    destruct (items !! i) as [q0|] eqn:I.
    2: { apply lookup_ge_None in I. apply lookup_lt_Some in Hi. lia. }
    destruct (Hk i q0 I) as (d0 & -> & E). rewrite Hi in E. injection E as ->.
    eexists _, d0. split; [reflexivity|].
    split; [|split; reflexivity].
    rewrite dict_lookup_set. do 2 f_equal.
  - destruct (renumber_from 0 _); try discriminate.
    simpl in Hren. injection Hren as <-. simpl in Hq. congruence.
Qed.

Lemma questions_renumbered_in_order_witness :
  create_quiz_from_text (decodes_to three_questions) utf8_stdout dumps_fine
    (lit "Photosynthesis converts light to energy.") 3 (lit "easy")
    (lit "VALIDKEY") (mock_world (always (answer (PStr (lit "{...}")))))
  = (Ok (PDict [(lit "questions",
                 PList [question 1 "first"; question 2 "second";
                        question 3 "third"])]),
     log (EvPost (quiz_request
                    (quiz_user_query
                       (lit "Photosynthesis converts light to energy."))
                    quiz_schema (quiz_system_prompt 3 (lit "easy"))
                    (lit "VALIDKEY")))
       (mock_world (always (answer (PStr (lit "{...}")))))) /\
  exists upstream upstream_questions,
    questions_of upstream = Some (PList upstream_questions) /\
    length [question 1 "first"; question 2 "second"; question 3 "third"]
      = length upstream_questions.
Proof.
  assert (E : create_quiz_from_text (decodes_to three_questions) utf8_stdout
    dumps_fine
    (lit "Photosynthesis converts light to energy.") 3 (lit "easy")
    (lit "VALIDKEY") (mock_world (always (answer (PStr (lit "{...}")))))
  = (Ok (PDict [(lit "questions",
                 PList [question 1 "first"; question 2 "second";
                        question 3 "third"])]),
     log (EvPost (quiz_request
                    (quiz_user_query
                       (lit "Photosynthesis converts light to energy."))
                    quiz_schema (quiz_system_prompt 3 (lit "easy"))
                    (lit "VALIDKEY")))
       (mock_world (always (answer (PStr (lit "{...}"))))))).
  { vm_compute. reflexivity. }
  split; [exact E|].
  destruct (questions_renumbered_in_order _ _ _ _ _ _ _ _ _ _ _ E eq_refl)
    as (upstream & uq & _ & Hq & Hl & _).
  exists upstream, uq. split; [exact Hq | exact Hl].
Defined.

Lemma normalize_quiz_malformed parsed :
  is_dict parsed = false \/
  (exists d, parsed = PDict d /\ dict_lookup (lit "questions") d = None) ->
  normalize_quiz parsed = Ok empty_quiz.
Proof.
  intros [H | (d & -> & H)]; unfold normalize_quiz.
  - rewrite H. reflexivity.
  - simpl. rewrite H. reflexivity.
Qed.

(** A structured call answered by a response with candidates, content and
    parts, by what the debug [print] and [json.loads] do with the
    payload. *)
Lemma quiz_call_on_payload json_loads stdout_encodes q schema sys key w r
    result json_string :
  answered_by w (quiz_request q schema sys key) r ->
  json r = Some result ->
  has_parts result = Ok true -> payload_text result = Ok json_string ->
  (_call_gemini_api_structured json_loads stdout_encodes q schema sys key w).1
  = wrap_unexpected (lit "An unexpected error occurred during API call: ")
      (let+ _ := py_print stdout_encodes (raw_output_text json_string) in
       match json_loads json_string with
       | Decoded parsed => normalize_quiz parsed
       | NotJSON =>
           let+ _ := py_print stdout_encodes (malformed_text json_string) in
           Ok empty_quiz
       | NestedTooDeep => Raise RecursionError
       | TooManyDigits msg => Raise (ValueError msg)
       end).
Proof.
  intros A J Hp Ht.
  rewrite (quiz_call_answered json_loads stdout_encodes _ _ _ _ w r A).
  unfold quiz_finish, response_json. rewrite J. simpl.
  unfold extract_quiz. rewrite Hp. simpl. rewrite Ht. reflexivity.
Qed.

(** The fallback of C5, where it is reached.  For a call answered by a
    response that has candidates, content and parts, when the text payload
    is not valid JSON, or decodes to a value that is not a dictionary, or to
    a dictionary without the key ['questions'], [create_quiz_from_text]
    returns [{"questions": []}], provided that every [print] on the way
    goes through (the difficulty, the first 500 characters of the payload
    and, for a payload that is not JSON, the warning sign and the whole
    payload can be encoded) and that [json.dumps] takes the empty quiz. *)
Lemma printed_malformed_payload_gives_empty_quiz json_loads stdout_encodes
    dumps_fault source_content
    num_questions difficulty api_key (w : World) (r : Response)
    (result : pyval) (json_string : str) :
  let req := quiz_request (quiz_user_query source_content) quiz_schema
               (quiz_system_prompt num_questions difficulty) api_key in
  str_truthy (strip source_content) = true -> str_truthy api_key = true ->
  answered_by w req r ->
  json r = Some result ->
  has_parts result = Ok true -> payload_text result = Ok json_string ->
  printable stdout_encodes difficulty = true ->
  printable stdout_encodes (slice json_string 0 500) = true ->
  dumps_fault empty_quiz = None ->
  (json_loads json_string = NotJSON /\
   printable stdout_encodes (malformed_text json_string) = true) \/
  (exists parsed,
     json_loads json_string = Decoded parsed /\
     (is_dict parsed = false \/
      exists d, parsed = PDict d /\ dict_lookup (lit "questions") d = None)) ->
  extract_quiz json_loads stdout_encodes result = Ok empty_quiz /\
  (create_quiz_from_text json_loads stdout_encodes dumps_fault source_content
     num_questions difficulty api_key w).1 = Ok empty_quiz.
Proof.
  intros req Hs Hk A J Hp Ht Hd Hraw Hdump Hbad.
  assert (X : (let+ _ := py_print stdout_encodes (raw_output_text json_string) in
               match json_loads json_string with
               | Decoded parsed => normalize_quiz parsed
               | NotJSON =>
                   let+ _ := py_print stdout_encodes
                               (malformed_text json_string) in
                   Ok empty_quiz
               | NestedTooDeep => Raise RecursionError
               | TooManyDigits msg => Raise (ValueError msg)
               end) = Ok empty_quiz).
  { unfold py_print. rewrite printable_raw_output_text, Hraw.
    cbv beta iota delta [obind].
    destruct Hbad as [[-> Hm] | (parsed & -> & Hn)].
    - rewrite Hm. reflexivity.
    - now apply normalize_quiz_malformed. }
  split.
  - unfold extract_quiz. rewrite Hp. simpl. rewrite Ht. exact X.
  - pose proof (quiz_call_on_payload json_loads stdout_encodes _ _ _ _ w r
                  result json_string A J Hp Ht) as C.
    rewrite X in C. simpl in C.
    rewrite create_quiz_printed by assumption.
    destruct (_call_gemini_api_structured _ _ _ _ _ _ w) as [o w'].
    simpl in C. subst o.
    assert (R : renumber_questions empty_quiz = Ok empty_quiz) by reflexivity.
    rewrite R. cbv beta iota delta [obind debug_dump]. now rewrite Hdump.
Qed.

(** C5 (the code fails the claim).  A text part that is no JSON and that
    standard output cannot encode, here the lone surrogate U+D800 on a
    UTF-8 stream, in a response that has candidates, content and parts:
    the debug [print] of the payload raises [UnicodeEncodeError] inside the
    outer [try], [except Exception] wraps it, and [create_quiz_from_text]
    raises instead of returning [{"questions": []}].  The fallback of the
    handler of [json.JSONDecodeError] is never reached. *)
Theorem unprintable_payload_raises :
  let w := mock_world (always (answer (PStr [55296%N]))) in
  has_parts (envelope (PStr [55296%N])) = Ok true /\
  payload_text (envelope (PStr [55296%N])) = Ok [55296%N] /\
  rejects_all [55296%N] = NotJSON /\
  create_quiz_from_text rejects_all utf8_stdout dumps_fine
    (lit "Some notes.") 3 (lit "easy") (lit "KEY") w
  = (Raise (PyException
              [Lit (lit "An unexpected error occurred during API call: ");
               Err UnicodeEncodeError]),
     log (EvPost (quiz_request (quiz_user_query (lit "Some notes."))
                    quiz_schema (quiz_system_prompt 3 (lit "easy"))
                    (lit "KEY"))) w).
Proof. cbv zeta. repeat split; vm_compute; reflexivity. Qed.

(** The same happens on a stream that cannot encode the warning sign of the
    handler's own [print] (an ASCII or a cp1252 standard output), for every
    payload that is not JSON, and when [json.loads] raises something else
    than [json.JSONDecodeError]. *)
Example malformed_payload_on_ascii_stdout_raises :
  (create_quiz_from_text rejects_all (fun _ => false) dumps_fine
     (lit "Some notes.") 3 (lit "easy") (lit "KEY")
     (mock_world (always (answer (PStr (lit "not json")))))).1
  = Raise (PyException
             [Lit (lit "An unexpected error occurred during API call: ");
              Err UnicodeEncodeError]).
Proof. vm_compute. reflexivity. Qed.

Example deeply_nested_payload_raises :
  (create_quiz_from_text (fun _ => NestedTooDeep) utf8_stdout dumps_fine
     (lit "Some notes.") 3 (lit "easy") (lit "KEY")
     (mock_world (always (answer (PStr (lit "[[[[[[[[")))))).1
  = Raise (PyException
             [Lit (lit "An unexpected error occurred during API call: ");
              Err RecursionError]).
Proof. vm_compute. reflexivity. Qed.

(** With a printable payload the fallback is reached. *)
Example printable_malformed_payload_gives_empty_quiz :
  (create_quiz_from_text rejects_all utf8_stdout dumps_fine
     (lit "Some notes.") 3 (lit "easy")
     (lit "KEY") (mock_world (always (answer (PStr (lit "not json")))))).1
  = Ok empty_quiz.
Proof.
  apply (printed_malformed_payload_gives_empty_quiz rejects_all utf8_stdout
           dumps_fine (lit "Some notes.") 3
           (lit "easy") (lit "KEY")
           (mock_world (always (answer (PStr (lit "not json")))))
           (answer (PStr (lit "not json")))
           (envelope (PStr (lit "not json"))) (lit "not json")
           eq_refl eq_refl (conj eq_refl (or_introl eq_refl))
           eq_refl eq_refl eq_refl eq_refl eq_refl eq_refl
           (or_introl (conj eq_refl eq_refl))).
Qed.

Lemma renumber_not_renumberable d v :
  dict_lookup (lit "questions") d = Some v -> not_renumberable v ->
  renumber_questions (PDict d) = Raise TypeError.
Proof.
  intros L N. unfold renumber_questions. simpl. rewrite L.
  destruct v as [| | | |[|c s]| |]; simpl in N; try contradiction; reflexivity.
Qed.

(** C10. A text payload that decodes to a dictionary holding under
    ['questions'] a value that is no list (a number, [None], a boolean, or a
    string that is not empty) gets through the normalization unchanged: the
    structured call returns the dictionary as it is.  The renumbering loop
    of [create_quiz_from_text] then raises a [TypeError]: no quiz is
    returned, and the fallback to [{"questions": []}] does not apply.  (The
    call returns, and the [TypeError] is reached, when the debug [print]s
    before them go through; when one does not, [create_quiz_from_text]
    raises all the same.) *)
Theorem non_list_questions_raise json_loads stdout_encodes dumps_fault
    source_content num_questions
    difficulty api_key (w : World) (r : Response) (result : pyval)
    (json_string : str) (d : list (str * pyval)) (v : pyval) :
  let req := quiz_request (quiz_user_query source_content) quiz_schema
               (quiz_system_prompt num_questions difficulty) api_key in
  str_truthy (strip source_content) = true -> str_truthy api_key = true ->
  answered_by w req r ->
  json r = Some result ->
  has_parts result = Ok true -> payload_text result = Ok json_string ->
  json_loads json_string = Decoded (PDict d) ->
  dict_lookup (lit "questions") d = Some v -> not_renumberable v ->
  normalize_quiz (PDict d) = Ok (PDict d) /\
  (printable stdout_encodes (slice json_string 0 500) = true ->
   (_call_gemini_api_structured json_loads stdout_encodes
      (quiz_user_query source_content)
      quiz_schema (quiz_system_prompt num_questions difficulty) api_key w).1
   = Ok (PDict d)) /\
  (printable stdout_encodes difficulty = true ->
   printable stdout_encodes (slice json_string 0 500) = true ->
   (create_quiz_from_text json_loads stdout_encodes dumps_fault
      source_content num_questions difficulty api_key w).1
   = Raise TypeError) /\
  (exists e,
     (create_quiz_from_text json_loads stdout_encodes dumps_fault
        source_content num_questions difficulty api_key w).1 = Raise e).
Proof.
  intros req Hs Hk A J Hp Ht Hl L N.
  assert (Hn : normalize_quiz (PDict d) = Ok (PDict d)).
  { unfold normalize_quiz. simpl. rewrite L. reflexivity. }
  pose proof (quiz_call_on_payload json_loads stdout_encodes _ _ _ _ w r
                result json_string A J Hp Ht) as C.
  rewrite Hl, Hn in C. unfold py_print in C.
  rewrite printable_raw_output_text in C.
  assert (T : printable stdout_encodes difficulty = true ->
              printable stdout_encodes (slice json_string 0 500) = true ->
              (create_quiz_from_text json_loads stdout_encodes dumps_fault
                 source_content num_questions difficulty api_key w).1
              = Raise TypeError).
  { intros Hd Hraw. rewrite Hraw in C. simpl in C.
    rewrite create_quiz_printed by assumption.
    destruct (_call_gemini_api_structured _ _ _ _ _ _ w) as [o w'].
    simpl in C. subst o.
    now rewrite (renumber_not_renumberable d v L N). }
  split; [exact Hn|]. split; [|split; [exact T|]].
  - intros Hraw. now rewrite Hraw in C.
  - destruct (printable stdout_encodes difficulty) eqn:Hd.
    + destruct (printable stdout_encodes (slice json_string 0 500)) eqn:Hraw.
      * eexists. now apply T.
      * simpl in C. rewrite create_quiz_printed by assumption.
        destruct (_call_gemini_api_structured _ _ _ _ _ _ w) as [o w'].
        simpl in C. subst o. eexists. reflexivity.
    + rewrite create_quiz_runs by assumption.
      unfold bind at 1. unfold lift at 1, py_print.
      rewrite printable_generating_text, Hd. eexists. reflexivity.
Qed.

Lemma non_list_questions_raise_witness :
  (create_quiz_from_text
     (decodes_to (PDict [(lit "questions", PStr (lit "none yet"))]))
     utf8_stdout dumps_fine
     (lit "Some notes.") 3 (lit "easy") (lit "KEY")
     (mock_world (always (answer (PStr (lit "{...}")))))).1
  = Raise TypeError.
Proof.
  apply (non_list_questions_raise
           (decodes_to (PDict [(lit "questions", PStr (lit "none yet"))]))
           utf8_stdout dumps_fine
           (lit "Some notes.") 3 (lit "easy") (lit "KEY")
           (mock_world (always (answer (PStr (lit "{...}")))))
           (answer (PStr (lit "{...}")))
           (envelope (PStr (lit "{...}"))) (lit "{...}")
           [(lit "questions", PStr (lit "none yet"))]
           (PStr (lit "none yet"))
           eq_refl eq_refl (conj eq_refl (or_introl eq_refl))
           eq_refl eq_refl eq_refl eq_refl eq_refl I); reflexivity.
Defined.

(** The same with a number under ['questions']. *)
Example number_of_questions_raises :
  (create_quiz_from_text (decodes_to (PDict [(lit "questions", PInt 5)]))
     utf8_stdout dumps_fine
     (lit "Some notes.") 3 (lit "easy") (lit "KEY")
     (mock_world (always (answer (PStr (lit "{...}")))))).1
  = Raise TypeError.
Proof. vm_compute. reflexivity. Qed.
